(** * Teacher Training API: a shallow embedding of [main.py] and [schemas.py]

    The service is a thin FastAPI layer over a MongoDB database.  Python
    dictionaries are finite maps from strings to values ([gmap string Value]),
    a collection is the list of its documents in natural (insertion) order,
    and a handler is a computation that threads the state of the external
    store and either returns a value or raises an exception. *)

From Stdlib Require Import ZArith Ascii String.
From stdpp Require Import base decidable option list gmap strings pretty.

#[local] Set Warnings "-register-all".
#[local] Open Scope Z_scope.

(** ** Python values *)

(** Text and [bytes] are both byte strings here; the Python slice [s[:n]] is
    the prefix of [n] bytes. *)
Fixpoint str_take (n : nat) (s : string) : string :=
  match n, s with
  | S k, String c r => String c (str_take k r)
  | _, _ => EmptyString
  end.

(** *** [binascii.hexlify] and [bytes.fromhex] *)

Definition hex_digit (n : N) : ascii :=
  if (n <? 10)%N then ascii_of_N (48 + n) else ascii_of_N (87 + n).

Definition hex_value (c : ascii) : option N :=
  let n := N_of_ascii c in
  if (48 <=? n)%N && (n <=? 57)%N then Some (n - 48)%N
  else if (97 <=? n)%N && (n <=? 102)%N then Some (n - 87)%N
  else if (65 <=? n)%N && (n <=? 70)%N then Some (n - 55)%N
  else None.

Fixpoint hexlify (b : string) : string :=
  match b with
  | EmptyString => EmptyString
  | String c r =>
      String (hex_digit (N_of_ascii c / 16)%N)
        (String (hex_digit (N_of_ascii c mod 16)%N) (hexlify r))
  end.

(** ASCII whitespace: space, and the characters 9 to 13. *)
Definition is_space (c : ascii) : bool :=
  let n := N_of_ascii c in
  (n =? 32)%N || ((9 <=? n)%N && (n <=? 13)%N).

(** [bytes.fromhex]: two hexadecimal digits (either case) per byte; ASCII
    whitespace is skipped where a byte may start, not between the two digits
    of a byte. *)
Fixpoint fromhex (s : string) : option string :=
  match s with
  | EmptyString => Some EmptyString
  | String c r =>
      if is_space c then fromhex r
      else
        match r with
        | String l r' =>
            match hex_value c, hex_value l, fromhex r' with
            | Some a, Some b, Some t => Some (String (ascii_of_N (16 * a + b)) t)
            | _, _, _ => None
            end
        | EmptyString => None
        end
  end.

(** *** [bson.ObjectId]

    An identifier is its bytes.  The identifiers that [ObjectId()] generates
    have twelve bytes; [ObjectId(s)] keeps whatever bytes [bytes.fromhex]
    decodes from the 24 characters of [s], without counting them. *)

Definition ObjectId : Type := string.

Definition oid_bytes (o : ObjectId) : string := o.

#[global] Instance ObjectId_eq_dec : EqDecision ObjectId.
Proof. unfold ObjectId. apply _. Defined.

(** What [ObjectId()] returns: twelve bytes. *)
Definition GeneratedId : Type := { b : ObjectId | String.length b = 12%nat }.

(** [str(oid)] *)
Definition ObjectId_str (o : ObjectId) : string := hexlify (oid_bytes o).

(** *** Values stored in documents and carried by JSON bodies *)

Inductive Value :=
  | VNone
  | VBool (b : bool)
  | VInt (n : Z)
  | VStr (s : string)
  | VOid (o : ObjectId)
  | VList (l : list Value)
  | VDict (d : gmap string Value).

Abbreviation Doc := (gmap string Value).

Fixpoint Value_eq_dec (x y : Value) {struct x} : Decision (x = y).
Proof.
  refine (
    match x, y with
    | VNone, VNone => left _
    | VBool a, VBool b => cast_if (decide (a = b))
    | VInt a, VInt b => cast_if (decide (a = b))
    | VStr a, VStr b => cast_if (decide (a = b))
    | VOid a, VOid b => cast_if (decide (a = b))
    | VList a, VList b => cast_if (@list_eq_dec _ Value_eq_dec a b)
    | VDict a, VDict b => cast_if (@gmap_eq_dec _ _ _ _ Value_eq_dec a b)
    | _, _ => right _
    end); congruence.
Defined.

#[global] Instance Value_eqdec : EqDecision Value := Value_eq_dec.

(** *** [repr] and [str] *)

Definition chr (n : N) : ascii := ascii_of_N n.

Definition str_contains (c : ascii) (s : string) : bool :=
  bool_decide (c ∈ String.list_ascii_of_string s).

(** [repr] of one character of a [str], inside the quote character [q]. *)
Definition repr_char (q c : ascii) : string :=
  let n := N_of_ascii c in
  if bool_decide (c = q) then String (chr 92) (String c EmptyString)
  else if (n =? 92)%N then String (chr 92) (String (chr 92) EmptyString)
  else if (n =? 10)%N then String (chr 92) "n"
  else if (n =? 13)%N then String (chr 92) "r"
  else if (n =? 9)%N then String (chr 92) "t"
  else if (n <? 32)%N || (n =? 127)%N then
    String (chr 92) (String "x" (String (hex_digit (n / 16)) (String (hex_digit (n mod 16)) EmptyString)))
  else String c EmptyString.

Fixpoint repr_chars (q : ascii) (s : string) : string :=
  match s with
  | EmptyString => EmptyString
  | String c r => repr_char q c +:+ repr_chars q r
  end.

(** Python quotes with an apostrophe, unless the text has an apostrophe and
    no double quote. *)
Definition repr_str (s : string) : string :=
  let q := if str_contains (chr 39) s && negb (str_contains (chr 34) s)
           then chr 34 else chr 39 in
  String q (repr_chars q s +:+ String q EmptyString).

Fixpoint join (sep : string) (l : list string) : string :=
  match l with
  | [] => EmptyString
  | [x] => x
  | x :: r => x +:+ sep +:+ join sep r
  end.

(** [repr(v)].  A [gmap] does not record insertion order, so the items of a
    dictionary are printed in the order of [map_to_list]. *)
Fixpoint py_repr (v : Value) : string :=
  match v with
  | VNone => "None"
  | VBool true => "True"
  | VBool false => "False"
  | VInt n => pretty n
  | VStr s => repr_str s
  | VOid o => "ObjectId('" +:+ ObjectId_str o +:+ "')"
  | VList l => "[" +:+ join ", " (map py_repr l) +:+ "]"
  | VDict d =>
      "{" +:+ join ", " (map (λ kv, repr_str kv.1 +:+ ": " +:+ kv.2)
                              (map_to_list (py_repr <$> d))) +:+ "}"
  end.

(** [str(v)]: the text itself for a [str], the hexadecimal digits for an
    [ObjectId], and [repr] for the rest. *)
Definition py_str (v : Value) : string :=
  match v with
  | VStr s => s
  | VOid o => ObjectId_str o
  | _ => py_repr v
  end.

(** *** What BSON can encode

    An integer is written on at most eight bytes: the encoder of pymongo
    raises [OverflowError] for an integer outside the signed 64-bit range.
    Of the ways an encoding can fail, this is the one that a payload accepted
    by the schemas can reach. *)

Definition int64 (n : Z) : bool := (- 2 ^ 63 <=? n) && (n <? 2 ^ 63).

Fixpoint encodable (v : Value) : bool :=
  match v with
  | VInt n => int64 n
  | VList l => forallb encodable l
  | VDict d => bool_decide (map_Forall (λ _ b, b = true) (encodable <$> d))
  | _ => true
  end.

Definition doc_encodable (d : Doc) : bool := encodable (VDict d).

(** ** Exceptions and outcomes *)

Inductive exn :=
  | HTTPException (status_code : Z) (detail : string)
  | RequestValidationError
  | PyException (kind : string) (message : string).

(** [str(e)]; Starlette prints an [HTTPException] as its status code, a colon,
    a space and the detail. *)
Definition exn_str (e : exn) : string :=
  match e with
  | HTTPException c d => pretty c +:+ ": " +:+ d
  | RequestValidationError => "validation error"
  | PyException _ m => m
  end.

Inductive outcome (A : Type) :=
  | Return (a : A)
  | Raise (e : exn).
Arguments Return {A} a.
Arguments Raise {A} e.

(** The status FastAPI answers with: 200 for a returned value, the status of an
    [HTTPException], 422 when the body fails validation, 500 for any exception
    that escapes the handler. *)
Definition status_of {A} (o : outcome A) : Z :=
  match o with
  | Return _ => 200
  | Raise (HTTPException c _) => c
  | Raise RequestValidationError => 422
  | Raise (PyException _ _) => 500
  end.

(** ** [to_str_id] *)

(** [not doc] for an optional dictionary. *)
Definition falsy (doc : option Doc) : bool :=
  match doc with
  | None => true
  | Some d => bool_decide (d = ∅)
  end.

Definition to_str_id (doc : option Doc) : option Doc :=
  if falsy doc then doc
  else
    match doc with
    | None => None
    | Some d =>
        match d !! "_id" with
        | None | Some VNone => Some d
        | Some _id => Some (delete "_id" (<["id" := VStr (py_str _id)]> d))
        end
    end.

(** ** State and exceptions

    A computation reads and updates a state of type [S] and either returns or
    raises; what it did to the state before raising stays done. *)

Definition ST (S A : Type) : Type := S → outcome A * S.

Definition st_ret {S A} (a : A) : ST S A := λ s, (Return a, s).

Definition raise {S A} (e : exn) : ST S A := λ s, (Raise e, s).

Definition st_bind {S A B} (k : A → ST S B) (m : ST S A) : ST S B :=
  λ s, match m s with
       | (Return a, s') => k a s'
       | (Raise e, s') => (Raise e, s')
       end.

(** [try: body except Exception as e: handler e] *)
Definition try_except {S A} (body : ST S A) (handler : exn → ST S A) : ST S A :=
  λ s, match body s with
       | (Raise e, s') => handler e s'
       | r => r
       end.

Definition lift {S A} (o : outcome A) : ST S A := λ s, (o, s).

#[global] Instance ST_ret {S} : MRet (ST S) := λ A, st_ret.
#[global] Instance ST_bind {S} : MBind (ST S) := λ A B, st_bind.

(** ** The external store (pymongo) *)

(** The documents of every collection, and the identifiers that the store
    hands out: [oid_source n] is the [n]-th generated [ObjectId]. *)
Record World := mkWorld {
  collections : gmap string (list Doc);
  oid_source : nat → GeneratedId;
  oid_used : nat;
}.

Abbreviation M := (ST World).

Definition coll (w : World) (name : string) : list Doc :=
  default [] (collections w !! name).

Definition set_coll (name : string) (l : list Doc) (w : World) : World :=
  {| collections := <[name := l]> (collections w);
     oid_source := oid_source w;
     oid_used := oid_used w |}.

(** A filter matches a document that has every key of the filter with an equal
    value.  (MongoDB also matches an array field that contains the value; the
    service stores text and identifiers under the keys it filters on.) *)
Definition matches (flt doc : Doc) : Prop :=
  map_Forall (λ k v, doc !! k = Some v) flt.

#[global] Instance matches_dec flt doc : Decision (matches flt doc).
Proof. unfold matches. apply _. Defined.

Definition find (name : string) (flt : Doc) : M (list Doc) :=
  λ w, (Return (filter (matches flt) (coll w name)), w).

Definition find_one (name : string) (flt : Doc) : M (option Doc) :=
  λ w, (Return (snd <$> list_find (matches flt) (coll w name)), w).

Definition count_documents (name : string) (flt : Doc) : M Z :=
  λ w, (Return (Z.of_nat (length (filter (matches flt) (coll w name)))), w).

(** [ObjectId()] *)
Definition new_ObjectId : M ObjectId :=
  λ w, (Return (proj1_sig (oid_source w (oid_used w))),
        {| collections := collections w;
           oid_source := oid_source w;
           oid_used := S (oid_used w) |}).

(** The failure of the encoder. *)
Definition overflow {A} : M A :=
  raise (PyException "OverflowError" "MongoDB can only handle up to 8-byte ints").

(** [insert_one]: a document without [_id] gets a generated one, the document
    is encoded, and the unique index on [_id] rejects a second document with
    the same value. *)
Definition with_id (doc : Doc) : M Doc :=
  match doc !! "_id" with
  | Some _ => mret doc
  | None => o ← new_ObjectId; mret (<["_id" := VOid o]> doc)
  end.

Definition append_doc (name : string) (doc : Doc) : M Value :=
  λ w, if decide (Exists (λ d : Doc, d !! "_id" = doc !! "_id") (coll w name))
       then (Raise (PyException "DuplicateKeyError" "E11000 duplicate key error"), w)
       else (Return (default VNone (doc !! "_id")),
             set_coll name (coll w name ++ [doc]) w).

Definition insert_one (name : string) (doc : Doc) : M Value :=
  doc' ← with_id doc;
  if doc_encodable doc' then append_doc name doc' else overflow.

(** [update_one(flt, {"$set": fields}, upsert=upsert)]: the filter and the
    fields are encoded; then the first matching document gets the fields, or,
    with no match and [upsert], the store inserts a document made of the
    filter and the fields under an identifier that it generates. *)
Definition update_one (name : string) (flt fields : Doc) (upsert : bool) : M unit :=
  if doc_encodable flt && doc_encodable fields then
    λ w, match list_find (matches flt) (coll w name) with
         | Some (i, d) =>
             (Return (), set_coll name (<[i := fields ∪ d]> (coll w name)) w)
         | None =>
             if upsert then (insert_one name (fields ∪ flt) ≫= λ _, mret ()) w
             else (Return (), w)
         end
  else overflow.

(** *** The handle [db] of [database.py]

    [db] is [None] when the connection was not configured.  Of the handle
    itself the handlers use its truth value ([if db]), its attribute [name]
    and [list_collection_names()]; each may raise.  The truth value is a
    field because a handle class may refuse truth testing, as pymongo's
    [Database] does in its recent versions with [NotImplementedError]. *)
Inductive attr (A : Type) :=
  | AttrMissing
  | AttrValue (a : A)
  | AttrRaises (e : exn).
Arguments AttrMissing {A}.
Arguments AttrValue {A} a.
Arguments AttrRaises {A} e.

Record Database := mkDatabase {
  db_bool : outcome bool;
  db_name : attr Value;
  db_list_collection_names : outcome (list string);
}.

(** [hasattr(obj, name)] is false on [AttributeError] only. *)
Definition hasattr {S A} (a : attr A) : ST S bool :=
  match a with
  | AttrMissing => mret false
  | AttrValue _ => mret true
  | AttrRaises e => raise e
  end.

Definition getattr {S A} (a : attr A) : ST S A :=
  match a with
  | AttrMissing => raise (PyException "AttributeError" "object has no attribute")
  | AttrValue v => mret v
  | AttrRaises e => raise e
  end.

(** [db[name]] *)
Definition db_getitem (db : option Database) (name : string) : M string :=
  match db with
  | Some _ => mret name
  | None => raise (PyException "TypeError" "'NoneType' object is not subscriptable")
  end.

(** [bool(db)] *)
Definition db_truth {S} (db : option Database) : ST S bool :=
  match db with
  | Some h => lift (db_bool h)
  | None => mret false
  end.

(** [ObjectId(s)] for a [str]: a text of 24 characters that [bytes.fromhex]
    decodes, else [InvalidId]. *)
Definition ObjectId_of_str {S} (s : string) : ST S ObjectId :=
  let invalid :=
    raise (PyException "InvalidId"
             (repr_str s +:+ " is not a valid ObjectId, it must be a 12-byte input or a 24-character hex string")) in
  if decide (String.length s = 24%nat) then
    match fromhex s with
    | Some b => mret b
    | None => invalid
    end
  else invalid.

(** ** [schemas.py]

    A pydantic model is a record; [validate] is the parsing of a JSON value
    into the model ([None] is a validation error) and [model_dump] the
    dictionary of its fields.  A required field ([Field(...)]) must be present
    with a value of its JSON type, an [Optional] field may be absent or null,
    unknown keys are ignored.  In [validate], conversions that pydantic makes
    between JSON types (a numeric string for an [int]) are left out, and a
    URL is kept as the text given; the validation over the conversions of
    pydantic, further down, has both.  [model_dump] has each URL as its
    text. *)

Definition lower (c : ascii) : ascii :=
  let n := N_of_ascii c in
  if (65 <=? n)%N && (n <=? 90)%N then ascii_of_N (n + 32) else c.

(** [strip_prefix p s]: what follows [p] in [s], letters compared without case. *)
Fixpoint strip_prefix (p s : string) : option string :=
  match p, s with
  | EmptyString, _ => Some s
  | String a p', String b s' =>
      if bool_decide (lower a = lower b) then strip_prefix p' s' else None
  | String _ _, EmptyString => None
  end.

(** The authority of a URL ends at the first [/], [?] or [#]. *)
Fixpoint url_host (s : string) : string :=
  match s with
  | EmptyString => EmptyString
  | String c r =>
      if bool_decide (c = chr 47 ∨ c = chr 63 ∨ c = chr 35) then EmptyString
      else String c (url_host r)
  end.

(** [HttpUrl]: scheme [http] or [https], a host, at most 2083 characters.
    The validated URL is kept as the text that was given. *)
Definition is_http_url (s : string) : bool :=
  bool_decide (String.length s ≤ 2083)%nat &&
  match strip_prefix "http://" s, strip_prefix "https://" s with
  | Some r, _ | None, Some r => negb (bool_decide (url_host r = EmptyString))
  | None, None => false
  end.

Definition opt_str (o : option string) : Value :=
  match o with
  | Some s => VStr s
  | None => VNone
  end.

(** [str = Field(...)] *)
Definition field_str (d : Doc) (k : string) : option string :=
  match d !! k with
  | Some (VStr s) => Some s
  | _ => None
  end.

(** [Optional[str] = Field(None)] *)
Definition field_opt_str (d : Doc) (k : string) : option (option string) :=
  match d !! k with
  | None | Some VNone => Some None
  | Some (VStr s) => Some (Some s)
  | Some _ => None
  end.

(** [int = Field(..., ge=0)] *)
Definition field_int_ge0 (d : Doc) (k : string) : option Z :=
  match d !! k with
  | Some (VInt n) => if bool_decide (0 ≤ n) then Some n else None
  | _ => None
  end.

(** [HttpUrl = Field(...)] *)
Definition field_url (d : Doc) (k : string) : option string :=
  match d !! k with
  | Some (VStr s) => if is_http_url s then Some s else None
  | _ => None
  end.

(** [Optional[HttpUrl] = Field(None)] *)
Definition field_opt_url (d : Doc) (k : string) : option (option string) :=
  match d !! k with
  | None | Some VNone => Some None
  | Some (VStr s) => if is_http_url s then Some (Some s) else None
  | Some _ => None
  end.

(** [List[T] = Field(default_factory=list)] *)
Definition field_list {A} (validate : Value → option A) (d : Doc) (k : string)
    : option (list A) :=
  match d !! k with
  | None => Some []
  | Some (VList l) => mapM validate l
  | Some _ => None
  end.

Module Timestamp.
Record t := mk { label : string; time : Z }.

Definition validate (v : Value) : option t :=
  match v with
  | VDict d =>
      label ← field_str d "label";
      time ← field_int_ge0 d "time";
      Some (mk label time)
  | _ => None
  end.

Definition model_dump (x : t) : Doc :=
  {[ "label" := VStr (label x); "time" := VInt (time x) ]}.
End Timestamp.

Module Resource.
Record t := mk { label : string; url : string; type : option string }.

Definition validate (v : Value) : option t :=
  match v with
  | VDict d =>
      label ← field_str d "label";
      url ← field_url d "url";
      type ← field_opt_str d "type";
      Some (mk label url type)
  | _ => None
  end.

Definition model_dump (x : t) : Doc :=
  {[ "label" := VStr (label x); "url" := VStr (url x); "type" := opt_str (type x) ]}.
End Resource.

Module Module_.
Record t := mk {
  title : string;
  description : option string;
  video_url : string;
  thumbnail_url : option string;
  category : option string;
  timestamps : list Timestamp.t;
  resources : list Resource.t;
}.

Definition validate (v : Value) : option t :=
  match v with
  | VDict d =>
      title ← field_str d "title";
      description ← field_opt_str d "description";
      video_url ← field_url d "video_url";
      thumbnail_url ← field_opt_url d "thumbnail_url";
      category ← field_opt_str d "category";
      timestamps ← field_list Timestamp.validate d "timestamps";
      resources ← field_list Resource.validate d "resources";
      Some (mk title description video_url thumbnail_url category timestamps resources)
  | _ => None
  end.

Definition model_dump (x : t) : Doc :=
  {[ "title" := VStr (title x);
     "description" := opt_str (description x);
     "video_url" := VStr (video_url x);
     "thumbnail_url" := opt_str (thumbnail_url x);
     "category" := opt_str (category x);
     "timestamps" := VList ((λ ts, VDict (Timestamp.model_dump ts)) <$> timestamps x);
     "resources" := VList ((λ r, VDict (Resource.model_dump r)) <$> resources x) ]}.
End Module_.

Module Progress.
Record t := mk {
  user_id : string;
  module_id : string;
  last_position : Z;
  completed : bool;
}.

Definition model_dump (x : t) : Doc :=
  {[ "user_id" := VStr (user_id x);
     "module_id" := VStr (module_id x);
     "last_position" := VInt (last_position x);
     "completed" := VBool (completed x) ]}.
End Progress.

Module Note.
Record t := mk {
  user_id : string;
  module_id : string;
  content : string;
}.

Definition model_dump (x : t) : Doc :=
  {[ "user_id" := VStr (user_id x);
     "module_id" := VStr (module_id x);
     "content" := VStr (content x) ]}.
End Note.

(** *** Validation over pydantic's own conversions

    What pydantic does to a scalar is pydantic's own: [HttpUrl] parses a text
    with its URL parser and returns the URL in normal form, or rejects the
    text; an [int] field converts the JSON value that it is given.  The
    validation of [Module] is written here over any such pair of conversions;
    [validate] above is this validation for conversions that keep an accepted
    URL as the text given and take JSON integers only. *)

Record Conversions := mkConversions {
  HttpUrl : string → option string;
  to_int : Value → option Z;
}.

Section WithConversions.
Variable conv : Conversions.

(** [HttpUrl = Field(...)] *)
Definition field_url_with (d : Doc) (k : string) : option string :=
  match d !! k with
  | Some (VStr s) => HttpUrl conv s
  | _ => None
  end.

(** [Optional[HttpUrl] = Field(None)] *)
Definition field_opt_url_with (d : Doc) (k : string) : option (option string) :=
  match d !! k with
  | None | Some VNone => Some None
  | Some (VStr s) => Some <$> HttpUrl conv s
  | Some _ => None
  end.

(** [int = Field(..., ge=0)] *)
Definition field_int_ge0_with (d : Doc) (k : string) : option Z :=
  match d !! k with
  | Some v => n ← to_int conv v; if bool_decide (0 ≤ n) then Some n else None
  | None => None
  end.

Definition Timestamp_validate_with (v : Value) : option Timestamp.t :=
  match v with
  | VDict d =>
      label ← field_str d "label";
      time ← field_int_ge0_with d "time";
      Some (Timestamp.mk label time)
  | _ => None
  end.

Definition Resource_validate_with (v : Value) : option Resource.t :=
  match v with
  | VDict d =>
      label ← field_str d "label";
      url ← field_url_with d "url";
      type ← field_opt_str d "type";
      Some (Resource.mk label url type)
  | _ => None
  end.

Definition Module_validate_with (v : Value) : option Module_.t :=
  match v with
  | VDict d =>
      title ← field_str d "title";
      description ← field_opt_str d "description";
      video_url ← field_url_with d "video_url";
      thumbnail_url ← field_opt_url_with d "thumbnail_url";
      category ← field_opt_str d "category";
      timestamps ← field_list Timestamp_validate_with d "timestamps";
      resources ← field_list Resource_validate_with d "resources";
      Some (Module_.mk title description video_url thumbnail_url category
              timestamps resources)
  | _ => None
  end.
End WithConversions.

Definition json_int (v : Value) : option Z :=
  match v with
  | VInt n => Some n
  | _ => None
  end.

(** The conversions of [validate]: an accepted URL is kept as the text given. *)
Definition as_given : Conversions :=
  mkConversions (λ s, if is_http_url s then Some s else None) json_int.

Fixpoint str_lower (s : string) : string :=
  match s with
  | EmptyString => EmptyString
  | String c r => String (lower c) (str_lower r)
  end.

Fixpoint str_drop (n : nat) (s : string) : string :=
  match n, s with
  | S k, String _ r => str_drop k r
  | _, _ => s
  end.

Fixpoint str_forallb (f : ascii → bool) (s : string) : bool :=
  match s with
  | EmptyString => true
  | String c r => f c && str_forallb f r
  end.

(** A printable ASCII character other than the blank. *)
Definition is_graph (c : ascii) : bool :=
  let n := N_of_ascii c in (32 <? n)%N && (n <? 127)%N.

(** The normal form of a URL made of a scheme, a host of printable characters
    and what follows it: scheme and host in lower case, and the path [/] when
    there is none. *)
Definition normal_url (s : string) : option string :=
  if is_http_url s then
    let '(scheme, r) :=
      match strip_prefix "http://" s with
      | Some r => ("http://", r)
      | None => ("https://", default EmptyString (strip_prefix "https://" s))
      end in
    let host := url_host r in
    let rest := str_drop (String.length host) r in
    if str_forallb is_graph host then
      Some (scheme +:+ str_lower host +:+
            match rest with
            | String c _ =>
                if bool_decide (c = chr 47) then rest else String (chr 47) rest
            | EmptyString => String (chr 47) EmptyString
            end)
    else None
  else None.

(** Conversions that return an accepted URL in normal form. *)
Definition normalising : Conversions := mkConversions normal_url json_int.

(** ** [main.py] *)

(** [for x in l: f x] *)
Fixpoint for_each {S A} (l : list A) (f : A → ST S unit) : ST S unit :=
  match l with
  | [] => mret ()
  | x :: r => f x;; for_each r f
  end.

(** [os.getenv(k)] taken as a condition: set and not empty. *)
Definition getenv_truthy (environ : gmap string string) (k : string) : bool :=
  match environ !! k with
  | Some s => negb (bool_decide (s = EmptyString))
  | None => false
  end.

(** [response[k] = v] *)
Definition setitem (k : string) (v : Value) : ST Doc unit :=
  λ r, (Return (), <[k := v]> r).

Definition samples : list Module_.t :=
  [ Module_.mk
      "Classroom Management: Routines that Work"
      (Some "Establishing smooth routines to reduce disruptions.")
      "https://samplelib.com/lib/preview/mp4/sample-5s.mp4"
      (Some "https://images.unsplash.com/photo-1529070538774-1843cb3265df?w=1200&q=80&auto=format&fit=crop")
      (Some "Classroom")
      [ Timestamp.mk "Overview" 5;
        Timestamp.mk "Entry Routine" 20;
        Timestamp.mk "Transitions" 40 ]
      [ Resource.mk "Routine Checklist (PDF)"
          "https://www.w3.org/WAI/ER/tests/xhtml/testfiles/resources/pdf/dummy.pdf"
          (Some "pdf") ];
    Module_.mk
      "Differentiation: Tiered Tasks"
      (Some "Design assignments that meet students where they are.")
      "https://samplelib.com/lib/preview/mp4/sample-5s.mp4"
      (Some "https://images.unsplash.com/photo-1509062522246-3755977927d7?w=1200&q=80&auto=format&fit=crop")
      (Some "Instruction")
      [ Timestamp.mk "Why Tiering" 6; Timestamp.mk "Examples" 18 ]
      [ Resource.mk "Tiered Task Templates"
          "https://www.africau.edu/images/default/sample.pdf" (Some "pdf") ];
    Module_.mk
      "Assessment: Quick Formative Checks"
      (Some "Gather real-time data to adjust instruction.")
      "https://samplelib.com/lib/preview/mp4/sample-5s.mp4"
      (Some "https://images.unsplash.com/photo-1523580846011-d3a5bc25702b?w=1200&q=80&auto=format&fit=crop")
      (Some "Assessment")
      [ Timestamp.mk "Entry Tickets" 8; Timestamp.mk "Exit Tickets" 16 ]
      [ Resource.mk "Formative Check Bank"
          "https://www.w3.org/WAI/ER/tests/xhtml/testfiles/resources/pdf/dummy.pdf"
          (Some "pdf") ] ].

Section Handlers.
(** The global [db] imported from [database.py]. *)
Variable db : option Database.

(** Modelled from the spec: [create_document] of [database.py], which is not
    among the sources.  It inserts one document into the named collection
    and returns the identifier assigned by the store as a string; it fails
    when the connection is unavailable or the write is rejected.  The model
    instance is passed as the dictionary of its fields, each URL as its
    text: the record that the spec speaks of. *)
Definition create_document (collection_name : string) (data : Doc) : M string :=
  match db with
  | None => raise (PyException "Exception" "Database not available")
  | Some _ =>
      inserted_id ← insert_one collection_name data;
      mret (py_str inserted_id)
  end.

(** Modelled from the spec: [get_documents] of [database.py], which is not
    among the sources.  It returns the documents that match the filter, in
    the natural order of the store, capped at [limit], and at 50 when the
    caller gives no limit; it fails when the connection is unavailable.  The
    spec speaks of positive limits only. *)
Definition get_documents (collection_name : string) (filter_dict : Doc)
    (limit : option Z) : M (list Doc) :=
  match db with
  | None => raise (PyException "Exception" "Database not available")
  | Some _ =>
      docs ← find collection_name filter_dict;
      mret (take (Z.to_nat (default 50 limit)) docs)
  end.

Definition read_root : Doc :=
  {[ "message" := VStr "Teacher Training API running" ]}.

Definition test_database (environ : gmap string string) : outcome Doc :=
  let response : Doc :=
    {[ "backend" := VStr "✅ Running";
       "database" := VStr "❌ Not Available";
       "database_url" := VNone;
       "database_name" := VNone;
       "connection_status" := VStr "Not Connected";
       "collections" := VList [] ]} in
  let set_or_not (k : string) : Value :=
    VStr (if getenv_truthy environ k then "✅ Set" else "❌ Not Set") in
  let body : ST Doc unit :=
    try_except
      (match db with
       | Some h =>
           setitem "database" (VStr "✅ Available");;
           setitem "database_url" (set_or_not "DATABASE_URL");;
           name ← (has ← hasattr (db_name h);
                   if has : bool then getattr (db_name h)
                   else mret (VStr "✅ Connected"));
           setitem "database_name" name;;
           setitem "connection_status" (VStr "Connected");;
           try_except
             (collections ← lift (db_list_collection_names h);
              setitem "collections" (VList (VStr <$> take 10 collections));;
              setitem "database" (VStr "✅ Connected & Working"))
             (λ e, setitem "database"
                     (VStr ("⚠️  Connected but Error: " +:+ str_take 50 (exn_str e))))
       | None => setitem "database" (VStr "⚠️  Available but not initialized")
       end)
      (λ e, setitem "database" (VStr ("❌ Error: " +:+ str_take 50 (exn_str e))));;
    setitem "database_url" (set_or_not "DATABASE_URL");;
    setitem "database_name" (set_or_not "DATABASE_NAME")
  in
  match body response with
  | (Return _, r) => Return r
  | (Raise e, _) => Raise e
  end.

Definition seed_modules : M Doc :=
  try_except
    (existing ← (b ← db_truth db;
                 if b : bool then c ← db_getitem db "module"; count_documents c ∅
                 else mret 0);
     if bool_decide (existing > 0) then
       mret ({[ "status" := VStr "ok";
                "message" := VStr "Modules already exist";
                "count" := VInt existing ]} : Doc)
     else
       for_each samples
         (λ m, create_document "module" (Module_.model_dump m) ≫= λ _, mret ());;
       mret ({[ "status" := VStr "ok";
                "inserted" := VInt (Z.of_nat (length samples)) ]} : Doc))
    (λ e, raise (HTTPException 500 (exn_str e))).

Definition create_module (module : Module_.t) : M Doc :=
  try_except
    (inserted_id ← create_document "module" (Module_.model_dump module);
     mret ({[ "id" := VStr inserted_id ]} : Doc))
    (λ e, raise (HTTPException 500 (exn_str e))).

Definition list_modules (limit : option Z) : M (list (option Doc)) :=
  try_except
    (docs ← get_documents "module" ∅ limit;
     mret ((λ d, to_str_id (Some d)) <$> docs))
    (λ e, raise (HTTPException 500 (exn_str e))).

Definition get_module (module_id : string) : M (option Doc) :=
  try_except
    (c ← db_getitem db "module";
     oid ← ObjectId_of_str module_id;
     doc ← find_one c {[ "_id" := VOid oid ]};
     if falsy doc then raise (HTTPException 404 "Module not found")
     else mret (to_str_id doc))
    (λ e, raise (HTTPException 400 (exn_str e))).

Definition save_progress (progress : Progress.t) : M (option Doc) :=
  let key : Doc := {[ "user_id" := VStr (Progress.user_id progress);
                      "module_id" := VStr (Progress.module_id progress) ]} in
  try_except
    (c ← db_getitem db "progress";
     update_one c key (Progress.model_dump progress) true;;
     c ← db_getitem db "progress";
     doc ← find_one c key;
     mret (to_str_id doc))
    (λ e, raise (HTTPException 500 (exn_str e))).

Definition get_progress (user_id module_id : string) : M (option Doc) :=
  try_except
    (c ← db_getitem db "progress";
     doc ← find_one c {[ "user_id" := VStr user_id; "module_id" := VStr module_id ]};
     if falsy doc then
       mret (Some ({[ "user_id" := VStr user_id;
                      "module_id" := VStr module_id;
                      "last_position" := VInt 0;
                      "completed" := VBool false ]} : Doc))
     else mret (to_str_id doc))
    (λ e, raise (HTTPException 500 (exn_str e))).

Definition save_note (note : Note.t) : M (option Doc) :=
  let key : Doc := {[ "user_id" := VStr (Note.user_id note);
                      "module_id" := VStr (Note.module_id note) ]} in
  try_except
    (c ← db_getitem db "note";
     update_one c key (Note.model_dump note) true;;
     c ← db_getitem db "note";
     doc ← find_one c key;
     mret (to_str_id doc))
    (λ e, raise (HTTPException 500 (exn_str e))).

Definition get_note (user_id module_id : string) : M (option Doc) :=
  try_except
    (c ← db_getitem db "note";
     doc ← find_one c {[ "user_id" := VStr user_id; "module_id" := VStr module_id ]};
     if falsy doc then
       mret (Some ({[ "user_id" := VStr user_id;
                      "module_id" := VStr module_id;
                      "content" := VStr "" ]} : Doc))
     else mret (to_str_id doc))
    (λ e, raise (HTTPException 500 (exn_str e))).

(** *** Routing: what FastAPI does before it calls a handler *)

(** [POST /api/modules]: the body is validated against [Module] first. *)
Definition post_api_modules (body : Value) : M Doc :=
  match Module_.validate body with
  | Some module => create_module module
  | None => raise RequestValidationError
  end.

(** [GET /api/modules]: the query parameter [limit], 50 when absent. *)
Definition get_api_modules (limit : option Z) : M (list (option Doc)) :=
  list_modules (Some (default 50 limit)).
End Handlers.

(** [POST /api/modules], over any conversions of pydantic. *)
Definition post_api_modules_with (conv : Conversions) (db : option Database)
    (body : Value) : M Doc :=
  match Module_validate_with conv body with
  | Some module => create_module db module
  | None => raise RequestValidationError
  end.

(** ** Sample data for the worked instances *)

Definition oid_a : ObjectId := "000000000000".
Definition oid_b : ObjectId := "000000000001".
Definition oid_c : ObjectId := "000000000002".

(** Generated identifiers: [oid_a], [oid_b], then [oid_c] for ever. *)
Definition sample_source (n : nat) : GeneratedId :=
  match n with
  | O => exist _ oid_a eq_refl
  | S O => exist _ oid_b eq_refl
  | _ => exist _ oid_c eq_refl
  end.

Definition empty_world : World := mkWorld ∅ sample_source 0.

(** A handle that works: true as a condition, named, listing its collections. *)
Definition live_db : Database :=
  mkDatabase (Return true) (AttrValue (VStr "training"))
    (Return ["module"; "progress"; "note"]).

(** ** Notions used in the statements *)

(** The filter of the progress and note handlers. *)
Definition pair_key (user_id module_id : string) : Doc :=
  {[ "user_id" := VStr user_id; "module_id" := VStr module_id ]}.

(** The stored progress documents of a pair. *)
Definition stored_progress (user_id module_id : string) (w : World) : list Doc :=
  filter (matches (pair_key user_id module_id)) (coll w "progress").

(** A sequence of [POST /api/progress] requests, one after the other. *)
Fixpoint post_progress_all (db : option Database) (ps : list Progress.t) (w : World)
    : list (outcome (option Doc)) * World :=
  match ps with
  | [] => ([], w)
  | p :: r =>
      let '(o, w1) := save_progress db p w in
      let '(os, w2) := post_progress_all db r w1 in
      (o :: os, w2)
  end.

(** No document of the collection has the identifier [o]. *)
Definition unused_id (o : ObjectId) (name : string) (w : World) : Prop :=
  Forall (λ d : Doc, d !! "_id" ≠ Some (VOid o)) (coll w name).

(** The identifier that the store generates next. *)
Definition next_id (w : World) : ObjectId := proj1_sig (oid_source w (oid_used w)).

(** A field that holds a text which [HttpUrl] rejects. *)
Definition not_a_url (conv : Conversions) (v : option Value) : Prop :=
  ∃ s, v = Some (VStr s) ∧ HttpUrl conv s = None.

(** A [Module] body without [video_url], or with a URL field that holds a text
    which [HttpUrl] rejects: [video_url], [thumbnail_url], or the [url] of one
    of the resources. *)
Definition url_defect (conv : Conversions) (d : Doc) : Prop :=
  d !! "video_url" = None ∨
  not_a_url conv (d !! "video_url") ∨
  not_a_url conv (d !! "thumbnail_url") ∨
  ∃ l rd, d !! "resources" = Some (VList l) ∧ VDict rd ∈ l ∧
          not_a_url conv (rd !! "url").

(** A URL that [HttpUrl] returned for some text. *)
Definition is_url (conv : Conversions) (u : string) : Prop :=
  ∃ s, HttpUrl conv s = Some u.

(** The constraints of [schemas.py] on a module, over the conversions: each
    URL is one that [HttpUrl] returned, and no time is negative. *)
Definition constraints_hold_with (conv : Conversions) (m : Module_.t) : Prop :=
  is_url conv (Module_.video_url m) ∧
  (∀ u, Module_.thumbnail_url m = Some u → is_url conv u) ∧
  Forall (λ ts, 0 ≤ Timestamp.time ts) (Module_.timestamps m) ∧
  Forall (λ r, is_url conv (Resource.url r)) (Module_.resources m).

(** The handle of pymongo: a [Database] refuses truth testing, has a name and
    lists its collections. *)
Definition pymongo_db : Database :=
  mkDatabase
    (Raise (PyException "NotImplementedError"
              "Database objects do not implement truth value testing or bool(). Please compare with None instead: database is not None"))
    (AttrValue (VStr "training"))
    (Return ["module"; "progress"; "note"]).

(** Bodies with one defect each. *)
Definition no_video_url : Doc := {[ "title" := VStr "Routines" ]}.

Definition spaced_video_url : Doc :=
  {[ "title" := VStr "Routines"; "video_url" := VStr "http://exa mple.com/" ]}.

Definition bad_thumbnail_url : Doc :=
  {[ "title" := VStr "Routines"; "video_url" := VStr "https://example.com/v";
     "thumbnail_url" := VStr "example.com/t.png" ]}.

Definition bad_resource_url : Doc :=
  {[ "title" := VStr "Routines"; "video_url" := VStr "https://example.com/v";
     "resources" := VList [ VDict {[ "label" := VStr "Slides";
                                      "url" := VStr "ftp://example.com/s.pdf" ]} ] ]}.

(** A body whose video URL has no path. *)
Definition bare_host_body : Doc :=
  {[ "title" := VStr "Routines"; "video_url" := VStr "https://example.com" ]}.

(** The values of a list field of a body; a missing field is the empty list. *)
Definition body_list (d : Doc) (k : string) : list Value :=
  match d !! k with
  | Some (VList l) => l
  | _ => []
  end.

(** The stored timestamp has the label posted and the integer that the
    conversion makes of the time posted. *)
Definition same_timestamp (conv : Conversions) (posted stored : Value) : Prop :=
  ∃ (pd : Doc) (label : string) (v : Value) (n : Z),
    posted = VDict pd ∧ pd !! "label" = Some (VStr label) ∧
    pd !! "time" = Some v ∧ to_int conv v = Some n ∧
    stored = VDict {[ "label" := VStr label; "time" := VInt n ]}.

(** The stored resource has the label and type posted and the URL that
    [HttpUrl] makes of the text posted. *)
Definition same_resource (conv : Conversions) (posted stored : Value) : Prop :=
  ∃ (pd : Doc) (label s u : string),
    posted = VDict pd ∧ pd !! "label" = Some (VStr label) ∧
    pd !! "url" = Some (VStr s) ∧ HttpUrl conv s = Some u ∧
    stored = VDict {[ "label" := VStr label; "url" := VStr u;
                      "type" := default VNone (pd !! "type") ]}.

(** The record [r] has the field values of the body [d]: texts as posted,
    with null for an optional text that is absent; each URL as [HttpUrl]
    returns it; timestamps and resources in the order posted. *)
Definition holds_module (conv : Conversions) (d r : Doc) : Prop :=
  r !! "title" = d !! "title" ∧
  r !! "description" = Some (default VNone (d !! "description")) ∧
  r !! "category" = Some (default VNone (d !! "category")) ∧
  (∃ s u, d !! "video_url" = Some (VStr s) ∧ HttpUrl conv s = Some u ∧
          r !! "video_url" = Some (VStr u)) ∧
  match d !! "thumbnail_url" with
  | Some (VStr s) =>
      ∃ u, HttpUrl conv s = Some u ∧ r !! "thumbnail_url" = Some (VStr u)
  | _ => r !! "thumbnail_url" = Some VNone
  end ∧
  (∃ l, r !! "timestamps" = Some (VList l) ∧
        Forall2 (same_timestamp conv) (body_list d "timestamps") l) ∧
  (∃ l, r !! "resources" = Some (VList l) ∧
        Forall2 (same_resource conv) (body_list d "resources") l).

(** A body with every field, URLs in normal form. *)
Definition full_body : Doc :=
  {[ "title" := VStr "Routines";
     "description" := VStr "Daily routines";
     "video_url" := VStr "https://example.com/v.mp4";
     "thumbnail_url" := VStr "https://example.com/t.png";
     "category" := VStr "basics";
     "timestamps" := VList [ VDict {[ "label" := VStr "Intro"; "time" := VInt 0 ]};
                             VDict {[ "label" := VStr "Main"; "time" := VInt 90 ]} ];
     "resources" := VList [ VDict {[ "label" := VStr "Slides";
                                      "url" := VStr "https://example.com/s.pdf";
                                      "type" := VStr "pdf" ]} ] ]}.

Definition full_module : Module_.t :=
  Module_.mk "Routines" (Some "Daily routines") "https://example.com/v.mp4"
    (Some "https://example.com/t.png") (Some "basics")
    [ Timestamp.mk "Intro" 0; Timestamp.mk "Main" 90 ]
    [ Resource.mk "Slides" "https://example.com/s.pdf" (Some "pdf") ].

(** What the constraints of [schemas.py] ask of the fields of a [Module]:
    URLs that are well formed and times that are not negative. *)
Definition constraints_hold (m : Module_.t) : Prop :=
  is_http_url (Module_.video_url m) = true ∧
  (∀ u, Module_.thumbnail_url m = Some u → is_http_url u = true) ∧
  Forall (λ ts, 0 ≤ Timestamp.time ts) (Module_.timestamps m) ∧
  Forall (λ r, is_http_url (Resource.url r) = true) (Module_.resources m).

(** A store with five modules. *)
Definition five_modules : World :=
  mkWorld {[ "module" := (λ n, ({[ "_id" := VInt n; "title" := VStr "m" ]} : Doc))
                           <$> [1; 2; 3; 4; 5] ]}
    sample_source 0.


(** The store after it generated an identifier and appended [doc] to the
    collection. *)
Definition after_insert (name : string) (doc : Doc) (w : World) : World :=
  set_coll name (coll w name ++ [doc])
    (mkWorld (collections w) (oid_source w) (S (oid_used w))).

(** The document [d] carries the four fields of the payload [p]. *)
Definition holds_progress (d : Doc) (p : Progress.t) : Prop :=
  d !! "user_id" = Some (VStr (Progress.user_id p)) ∧
  d !! "module_id" = Some (VStr (Progress.module_id p)) ∧
  d !! "last_position" = Some (VInt (Progress.last_position p)) ∧
  d !! "completed" = Some (VBool (Progress.completed p)).

(** Three progress payloads of one pair. *)
Definition progress_1 : Progress.t := Progress.mk "ann" "m1" 10 false.
Definition progress_2 : Progress.t := Progress.mk "ann" "m1" 25 false.
Definition progress_3 : Progress.t := Progress.mk "ann" "m1" 40 true.

(** ** The bodies of [Progress] and [Note], and their routes *)

(** [int = Field(dflt, ge=0)] *)
Definition field_int_ge0_or (dflt : Z) (d : Doc) (k : string) : option Z :=
  match d !! k with
  | None => Some dflt
  | Some (VInt n) => if bool_decide (0 ≤ n) then Some n else None
  | Some _ => None
  end.

(** [bool = Field(dflt)] *)
Definition field_bool_or (dflt : bool) (d : Doc) (k : string) : option bool :=
  match d !! k with
  | None => Some dflt
  | Some (VBool b) => Some b
  | Some _ => None
  end.

(** [str = Field(dflt)] *)
Definition field_str_or (dflt : string) (d : Doc) (k : string) : option string :=
  match d !! k with
  | None => Some dflt
  | Some (VStr s) => Some s
  | Some _ => None
  end.

(** The parsing of a JSON value into [Progress]. *)
Definition Progress_validate (v : Value) : option Progress.t :=
  match v with
  | VDict d =>
      user_id ← field_str d "user_id";
      module_id ← field_str d "module_id";
      last_position ← field_int_ge0_or 0 d "last_position";
      completed ← field_bool_or false d "completed";
      Some (Progress.mk user_id module_id last_position completed)
  | _ => None
  end.

(** The parsing of a JSON value into [Note]. *)
Definition Note_validate (v : Value) : option Note.t :=
  match v with
  | VDict d =>
      user_id ← field_str d "user_id";
      module_id ← field_str d "module_id";
      content ← field_str_or "" d "content";
      Some (Note.mk user_id module_id content)
  | _ => None
  end.

(** [POST /api/progress]: the body is validated against [Progress] first. *)
Definition post_api_progress (db : option Database) (body : Value) : M (option Doc) :=
  match Progress_validate body with
  | Some progress => save_progress db progress
  | None => raise RequestValidationError
  end.

(** [POST /api/notes]: the body is validated against [Note] first. *)
Definition post_api_notes (db : option Database) (body : Value) : M (option Doc) :=
  match Note_validate body with
  | Some note => save_note db note
  | None => raise RequestValidationError
  end.

(** ** Notions used in the further statements *)

(** The stored documents of a pair in a collection. *)
Definition stored (name user_id module_id : string) (w : World) : list Doc :=
  filter (matches (pair_key user_id module_id)) (coll w name).

(** No pair has two documents in the collection. *)
Definition pairs_unique (name : string) (w : World) : Prop :=
  ∀ u m, (length (stored name u m w) ≤ 1)%nat.

(** The document [d] carries the three fields of the note [n]. *)
Definition holds_note (d : Doc) (n : Note.t) : Prop :=
  d !! "user_id" = Some (VStr (Note.user_id n)) ∧
  d !! "module_id" = Some (VStr (Note.module_id n)) ∧
  d !! "content" = Some (VStr (Note.content n)).

(** The requests that the handlers of [main.py] serve on their own, without
    [database.py]. *)
Inductive Request :=
  | PostProgress (p : Progress.t)
  | GetProgress (user_id module_id : string)
  | PostNote (n : Note.t)
  | GetNote (user_id module_id : string)
  | GetModule (module_id : string).

(** One request: the status of the answer and the store afterwards. *)
Definition serve (db : option Database) (r : Request) (w : World) : Z * World :=
  match r with
  | PostProgress p => let '(o, w') := save_progress db p w in (status_of o, w')
  | GetProgress u m => let '(o, w') := get_progress db u m w in (status_of o, w')
  | PostNote n => let '(o, w') := save_note db n w in (status_of o, w')
  | GetNote u m => let '(o, w') := get_note db u m w in (status_of o, w')
  | GetModule i => let '(o, w') := get_module db i w in (status_of o, w')
  end.

(** Requests served one after the other. *)
Fixpoint serve_all (db : option Database) (rs : list Request) (w : World)
    : list Z * World :=
  match rs with
  | [] => ([], w)
  | r :: rest =>
      let '(s, w1) := serve db r w in
      let '(ss, w2) := serve_all db rest w1 in
      (s :: ss, w2)
  end.

(** Two notes of one pair, and a mixed sequence of requests. *)
Definition note_1 : Note.t := Note.mk "ann" "m1" "first draft".
Definition note_2 : Note.t := Note.mk "ann" "m1" "second draft".

Definition mixed_requests : list Request :=
  [ PostProgress progress_1; PostNote note_1; GetProgress "ann" "m1";
    PostProgress (Progress.mk "bob" "m1" 3 false); PostNote note_2;
    GetModule "000000000000000000000000"; PostProgress progress_3;
    GetNote "bob" "m2" ].

(** * Properties *)

(** ** Running a handler *)

Ltac run_st :=
  repeat progress
    (unfold mbind, mret, ST_bind, ST_ret, st_bind, st_ret, try_except, raise, lift,
       db_getitem, db_truth;
     cbn beta iota).

(** Lookups of literal keys in a dictionary display. *)
Ltac map_lookups :=
  repeat first
    [ rewrite lookup_insert_eq
    | rewrite lookup_insert_ne; [|done]
    | rewrite lookup_singleton_eq
    | rewrite lookup_singleton_ne; [|done]
    | rewrite lookup_empty ].

(** ** Identifiers *)

Lemma hex_byte_roundtrip (c : ascii) :
  hex_value (hex_digit (N_of_ascii c / 16)%N) = Some (N_of_ascii c / 16)%N ∧
  hex_value (hex_digit (N_of_ascii c mod 16)%N) = Some (N_of_ascii c mod 16)%N ∧
  ascii_of_N (16 * (N_of_ascii c / 16) + N_of_ascii c mod 16) = c ∧
  is_space (hex_digit (N_of_ascii c / 16)%N) = false.
Proof. destruct c as [[] [] [] [] [] [] [] []]; vm_compute; auto. Qed.

Lemma fromhex_hexlify (b : string) : fromhex (hexlify b) = Some b.
Proof.
  induction b as [|c r IH]; [reflexivity|].
  destruct (hex_byte_roundtrip c) as (Hhi & Hlo & Hc & Hsp).
  cbn [hexlify fromhex]. rewrite Hsp, Hhi, Hlo, IH, Hc. reflexivity.
Qed.

Lemma length_hexlify (b : string) :
  String.length (hexlify b) = (2 * String.length b)%nat.
Proof. induction b as [|c r IH]; cbn [hexlify String.length]; lia. Qed.

(** Parsing the text of an identifier of twelve bytes gives the identifier
    back. *)
Lemma ObjectId_of_str_str {S} (o : ObjectId) (s : S) :
  String.length o = 12%nat →
  ObjectId_of_str (ObjectId_str o) s = (Return o, s).
Proof.
  intros Hlen. unfold ObjectId_of_str, ObjectId_str, oid_bytes.
  rewrite fromhex_hexlify.
  destruct (decide (String.length (hexlify o) = 24%nat)) as [_|Hn]; [reflexivity|].
  rewrite length_hexlify in Hn. lia.
Qed.

Lemma next_id_length (w : World) : String.length (next_id w) = 12%nat.
Proof. unfold next_id. by destruct (oid_source w (oid_used w)). Qed.

(** ** Lookups in a collection *)

Lemma find_one_none (name : string) (flt : Doc) (w : World) :
  Forall (λ d, ¬ matches flt d) (coll w name) →
  find_one name flt w = (Return None, w).
Proof.
  intros H. unfold find_one.
  apply (list_find_None (matches flt)) in H. rewrite H. reflexivity.
Qed.

Lemma matches_empty (d : Doc) : matches ∅ d.
Proof. apply map_Forall_empty. Qed.

Lemma filter_matches_empty (l : list Doc) : filter (matches ∅) l = l.
Proof.
  induction l as [|d l IH]; [reflexivity|].
  rewrite filter_cons_True by apply matches_empty. by rewrite IH.
Qed.

(** ** [to_str_id] *)

Lemma to_str_id_with_id (d : Doc) (v : Value) :
  d !! "_id" = Some v → v ≠ VNone →
  to_str_id (Some d) = Some (delete "_id" (<["id" := VStr (py_str v)]> d)).
Proof.
  intros Hd Hv. unfold to_str_id, falsy.
  rewrite bool_decide_eq_false_2.
  - rewrite Hd. destruct v; congruence.
  - intros ->. by rewrite lookup_empty in Hd.
Qed.

(** C10, as the code has it.  A document whose [_id] is present and not
    [None] comes back without [_id], with [id] holding the text of [_id], and
    with every other field as it was.  A document that is [None], empty,
    without [_id], or whose [_id] is [None], comes back unchanged. *)
Theorem to_str_id_spec (d : Doc) :
  (∀ v, d !! "_id" = Some v → v ≠ VNone →
     ∃ r, to_str_id (Some d) = Some r ∧
          r !! "_id" = None ∧
          r !! "id" = Some (VStr (py_str v)) ∧
          ∀ k, k ≠ "_id" → k ≠ "id" → r !! k = d !! k) ∧
  (d !! "_id" = None ∨ d !! "_id" = Some VNone → to_str_id (Some d) = Some d) ∧
  to_str_id None = None.
Proof.
  split; [|split]; [| |reflexivity].
  - intros v Hd Hv. eexists. split; [by apply to_str_id_with_id|].
    split; [apply lookup_delete_eq|].
    split.
    + rewrite lookup_delete_ne by done. apply lookup_insert_eq.
    + intros k H1 H2. rewrite lookup_delete_ne by done.
      by rewrite lookup_insert_ne.
  - intros H. unfold to_str_id, falsy.
    case_bool_decide; [done|]. by destruct H as [-> | ->].
Qed.

(** The two cases at concrete documents: one with an [ObjectId], one
    without [_id]. *)
Lemma to_str_id_spec_witness :
  (∃ r, to_str_id (Some {[ "_id" := VOid oid_a; "title" := VStr "t" ]}) = Some r ∧
        r !! "_id" = None ∧
        r !! "id" = Some (VStr (py_str (VOid oid_a))) ∧
        ∀ k, k ≠ "_id" → k ≠ "id" →
             r !! k = ({[ "_id" := VOid oid_a; "title" := VStr "t" ]} : Doc) !! k) ∧
  to_str_id (Some {[ "title" := VStr "t" ]}) = Some {[ "title" := VStr "t" ]}.
Proof.
  split.
  - apply (proj1 (to_str_id_spec {[ "_id" := VOid oid_a; "title" := VStr "t" ]})
             (VOid oid_a)).
    + reflexivity.
    + discriminate.
  - apply (proj1 (proj2 (to_str_id_spec {[ "title" := VStr "t" ]}))).
    left. reflexivity.
Defined.

(** C10 as stated fails: a document that contains [_id] with the value [None]
    keeps the field and gets no [id]. *)
Lemma to_str_id_null_id_kept :
  ({[ "_id" := VNone; "title" := VStr "t" ]} : Doc) !! "_id" = Some VNone ∧
  to_str_id (Some {[ "_id" := VNone; "title" := VStr "t" ]})
    = Some {[ "_id" := VNone; "title" := VStr "t" ]}.
Proof. split; reflexivity. Qed.

(** ** [GET /api/modules/{module_id}] *)

(** With a usable handle and a well-formed identifier that no module has, the
    404 raised inside the [try] is caught by [except Exception] of the same
    handler and turned into a 400. *)
Lemma get_module_absent (h : Database) (module_id : string) (o : ObjectId) (w : World) :
  ObjectId_of_str module_id w = (Return o, w) →
  Forall (λ d, ¬ matches {[ "_id" := VOid o ]} d) (coll w "module") →
  get_module (Some h) module_id w
    = (Raise (HTTPException 400 "404: Module not found"), w).
Proof.
  intros Hid Hnone. unfold get_module. run_st.
  rewrite Hid. rewrite (find_one_none _ _ _ Hnone). reflexivity.
Qed.

(** C1 at a concrete request: on a store with no module, the lookup of the
    well-formed identifier of twenty-four zeros is answered with 400, not 404. *)
Theorem get_module_absent_status_400 :
  get_module (Some live_db) "000000000000000000000000" empty_world
    = (Raise (HTTPException 400 "404: Module not found"), empty_world) ∧
  status_of (fst (get_module (Some live_db) "000000000000000000000000" empty_world))
    = 400.
Proof. split; reflexivity. Qed.

(** ** [GET /api/progress] and [GET /api/notes] *)

(** C3.  With a usable handle, when no stored document has the pair
    [(user_id, module_id)], both lookups return (status 200) the default
    record, which has no [id] field, and leave the store as it was. *)
Theorem get_defaults_when_unwritten (h : Database) (user_id module_id : string) (w : World) :
  let key : Doc := {[ "user_id" := VStr user_id; "module_id" := VStr module_id ]} in
  let progress0 : Doc :=
    {[ "user_id" := VStr user_id; "module_id" := VStr module_id;
       "last_position" := VInt 0; "completed" := VBool false ]} in
  let note0 : Doc :=
    {[ "user_id" := VStr user_id; "module_id" := VStr module_id;
       "content" := VStr "" ]} in
  (Forall (λ d, ¬ matches key d) (coll w "progress") →
     get_progress (Some h) user_id module_id w = (Return (Some progress0), w) ∧
     status_of (fst (get_progress (Some h) user_id module_id w)) = 200 ∧
     progress0 !! "id" = None) ∧
  (Forall (λ d, ¬ matches key d) (coll w "note") →
     get_note (Some h) user_id module_id w = (Return (Some note0), w) ∧
     status_of (fst (get_note (Some h) user_id module_id w)) = 200 ∧
     note0 !! "id" = None).
Proof.
  intros key progress0 note0. split; intros Hnone.
  - assert (get_progress (Some h) user_id module_id w = (Return (Some progress0), w)) as E.
    { unfold get_progress. run_st. fold key.
      rewrite (find_one_none _ _ _ Hnone). reflexivity. }
    rewrite E. repeat split.
  - assert (get_note (Some h) user_id module_id w = (Return (Some note0), w)) as E.
    { unfold get_note. run_st. fold key.
      rewrite (find_one_none _ _ _ Hnone). reflexivity. }
    rewrite E. repeat split.
Qed.

(** Both lookups on the empty store. *)
Lemma get_defaults_when_unwritten_witness :
  get_progress (Some live_db) "ann" "m1" empty_world
    = (Return (Some {[ "user_id" := VStr "ann"; "module_id" := VStr "m1";
                       "last_position" := VInt 0; "completed" := VBool false ]}),
       empty_world) ∧
  get_note (Some live_db) "ann" "m1" empty_world
    = (Return (Some {[ "user_id" := VStr "ann"; "module_id" := VStr "m1";
                       "content" := VStr "" ]}),
       empty_world).
Proof.
  pose proof (get_defaults_when_unwritten live_db "ann" "m1" empty_world) as [Hp Hn].
  split.
  - apply Hp. constructor.
  - apply Hn. constructor.
Defined.

(** ** [GET /test] *)

(** C8.  Whatever the handle and the environment, [test_database] returns a
    report (status 200).  Its [database] field names the fault: the handle is
    absent, reading [db.name] raised, or listing the collections raised. *)
Theorem test_database_never_raises (db : option Database) (environ : gmap string string) :
  ∃ report : Doc,
    test_database db environ = Return report ∧
    status_of (test_database db environ) = 200 ∧
    report !! "database" = Some (VStr
      match db with
      | None => "⚠️  Available but not initialized"
      | Some h =>
          match db_name h, db_list_collection_names h with
          | AttrRaises e, _ => "❌ Error: " +:+ str_take 50 (exn_str e)
          | _, Raise e => "⚠️  Connected but Error: " +:+ str_take 50 (exn_str e)
          | _, Return _ => "✅ Connected & Working"
          end
      end).
Proof.
  destruct db as [[b [|v|e] [l|e']]|];
    (eexists; split; [reflexivity|split; reflexivity]).
Qed.

(** ** [GET /api/modules] *)

(** C7.  With a usable handle and a positive [limit], the listing returns the
    first [limit] modules of the store, hence [limit] of them when that many
    exist and all of them otherwise; without [limit] the cap is 50. *)
Theorem list_modules_capped (h : Database) (limit : Z) (w : World) :
  0 < limit →
  (∃ docs,
     get_api_modules (Some h) (Some limit) w = (Return docs, w) ∧
     docs = (λ d, to_str_id (Some d)) <$> take (Z.to_nat limit) (coll w "module") ∧
     length docs = (Z.to_nat limit `min` length (coll w "module"))%nat) ∧
  (∃ docs,
     get_api_modules (Some h) None w = (Return docs, w) ∧
     length docs = (50 `min` length (coll w "module"))%nat).
Proof.
  intros Hpos.
  assert (∀ n, get_api_modules (Some h) n w
               = (Return ((λ d, to_str_id (Some d))
                            <$> take (Z.to_nat (default 50 n)) (coll w "module")), w)) as E.
  { intros n. unfold get_api_modules, list_modules, get_documents, find. run_st.
    rewrite filter_matches_empty. reflexivity. }
  split; eexists; (split; [apply E|]).
  - split; [reflexivity|]. rewrite length_fmap. apply length_take.
  - rewrite length_fmap. apply length_take.
Qed.

(** [limit=2] with five modules stored: two records. *)
Lemma list_modules_capped_witness :
  (∃ docs,
     get_api_modules (Some live_db) (Some 2) five_modules = (Return docs, five_modules) ∧
     docs = (λ d, to_str_id (Some d)) <$> take (Z.to_nat 2) (coll five_modules "module") ∧
     length docs = (Z.to_nat 2 `min` length (coll five_modules "module"))%nat) ∧
  (∃ docs,
     get_api_modules (Some live_db) None five_modules = (Return docs, five_modules) ∧
     length docs = (50 `min` length (coll five_modules "module"))%nat).
Proof. apply (list_modules_capped live_db 2 five_modules). lia. Defined.

Example list_two_of_five :
  length (default [] (match fst (get_api_modules (Some live_db) (Some 2) five_modules) with
                      | Return docs => Some docs
                      | Raise _ => None
                      end)) = 2%nat.
Proof. reflexivity. Qed.

(** ** Validation of a [Module] body *)

Lemma field_list_defect {A} (validate : Value → option A) (d : Doc) (k : string)
    (l : list Value) (v : Value) :
  d !! k = Some (VList l) → v ∈ l → validate v = None →
  field_list validate d k = None.
Proof.
  intros Hd Hv Hnone. unfold field_list. rewrite Hd.
  apply mapM_None. apply Exists_exists. eauto.
Qed.

Section UrlDefect.
Variable conv : Conversions.

Lemma field_url_with_defect (d : Doc) (k : string) :
  d !! k = None ∨ not_a_url conv (d !! k) → field_url_with conv d k = None.
Proof. unfold field_url_with. by intros [-> | (s & -> & Hs)]. Qed.

Lemma field_opt_url_with_defect (d : Doc) (k : string) :
  not_a_url conv (d !! k) → field_opt_url_with conv d k = None.
Proof. unfold field_opt_url_with. intros (s & -> & Hs). by rewrite Hs. Qed.

Lemma validate_with_url_defect (d : Doc) :
  url_defect conv d → Module_validate_with conv (VDict d) = None.
Proof.
  intros Hd. unfold Module_validate_with.
  destruct (field_str d "title"); [cbn|done].
  destruct (field_opt_str d "description"); [cbn|done].
  destruct Hd as [H | [H | [H | (l & rd & Hl & Hin & Hurl)]]].
  - rewrite field_url_with_defect by auto. done.
  - rewrite field_url_with_defect by auto. done.
  - destruct (field_url_with conv d "video_url"); [cbn|done].
    rewrite field_opt_url_with_defect by auto. done.
  - destruct (field_url_with conv d "video_url"); [cbn|done].
    destruct (field_opt_url_with conv d "thumbnail_url"); [cbn|done].
    destruct (field_opt_str d "category"); [cbn|done].
    destruct (field_list (Timestamp_validate_with conv) d "timestamps"); [cbn|done].
    rewrite (field_list_defect (Resource_validate_with conv) d "resources" l (VDict rd));
      [done..|].
    unfold Resource_validate_with.
    destruct (field_str rd "label"); [cbn|done].
    rewrite field_url_with_defect by auto. done.
Qed.
End UrlDefect.

(** [validate] is the validation over the conversions [as_given]. *)
Lemma timestamp_validate_as_given (v : Value) :
  Timestamp_validate_with as_given v = Timestamp.validate v.
Proof.
  destruct v as [| | | | | |d]; try done. cbn.
  destruct (field_str d "label"); [cbn|done].
  unfold field_int_ge0_with, field_int_ge0.
  by destruct (d !! "time") as [[]|].
Qed.

Lemma resource_validate_as_given (v : Value) :
  Resource_validate_with as_given v = Resource.validate v.
Proof.
  by destruct v.
Qed.

Lemma module_validate_as_given (v : Value) :
  Module_validate_with as_given v = Module_.validate v.
Proof.
  destruct v as [| | | | | |d]; try done. cbn.
  destruct (field_str d "title"); [cbn|done].
  destruct (field_opt_str d "description"); [cbn|done].
  assert (field_url_with as_given d "video_url" = field_url d "video_url") as ->
    by (unfold field_url_with, field_url; by destruct (d !! "video_url") as [[]|]).
  destruct (field_url d "video_url"); [cbn|done].
  assert (field_opt_url_with as_given d "thumbnail_url" = field_opt_url d "thumbnail_url")
    as ->.
  { unfold field_opt_url_with, field_opt_url.
    destruct (d !! "thumbnail_url") as [[]|]; try done. cbn.
    by destruct (is_http_url _). }
  destruct (field_opt_url d "thumbnail_url"); [cbn|done].
  destruct (field_opt_str d "category"); [cbn|done].
  assert (field_list (Timestamp_validate_with as_given) d "timestamps"
          = field_list Timestamp.validate d "timestamps") as ->.
  { unfold field_list. destruct (d !! "timestamps") as [[]|]; try done.
    apply mapM_ext, timestamp_validate_as_given. }
  destruct (field_list Timestamp.validate d "timestamps"); [cbn|done].
  assert (field_list (Resource_validate_with as_given) d "resources"
          = field_list Resource.validate d "resources") as ->.
  { unfold field_list. by destruct (d !! "resources") as [[]|]. }
  done.
Qed.

Lemma post_api_modules_as_given (db : option Database) (body : Value) :
  post_api_modules_with as_given db body = post_api_modules db body.
Proof.
  unfold post_api_modules_with, post_api_modules.
  by rewrite module_validate_as_given.
Qed.

(** C6.  Whatever texts [HttpUrl] accepts: a body without [video_url], or
    with a URL field ([video_url], [thumbnail_url], the [url] of a resource)
    holding a text that [HttpUrl] rejects, is answered with the validation
    error (status 422) and the store is left as it was, whatever the handle. *)
Theorem post_module_url_defect_rejected (conv : Conversions) (db : option Database)
    (d : Doc) (w : World) :
  url_defect conv d →
  post_api_modules_with conv db (VDict d) w = (Raise RequestValidationError, w) ∧
  status_of (fst (post_api_modules_with conv db (VDict d) w)) = 422.
Proof.
  intros Hd. unfold post_api_modules_with. rewrite (validate_with_url_defect conv d Hd).
  split; reflexivity.
Qed.

(** Four bodies, one for each defect: no [video_url]; a [video_url] with a
    space in the host; a [thumbnail_url] without a scheme; a resource whose
    [url] has the scheme [ftp]. *)
Lemma post_module_url_defect_rejected_witness :
  Forall (λ d,
      post_api_modules_with normalising (Some live_db) (VDict d) empty_world
        = (Raise RequestValidationError, empty_world) ∧
      status_of (fst (post_api_modules_with normalising (Some live_db) (VDict d)
                        empty_world)) = 422)
    [ no_video_url; spaced_video_url; bad_thumbnail_url; bad_resource_url ].
Proof.
  repeat apply Forall_cons_2; [..|apply Forall_nil_2];
    apply (post_module_url_defect_rejected normalising (Some live_db)).
  - left. reflexivity.
  - right; left. eexists. split; reflexivity.
  - right; right; left. eexists. split; reflexivity.
  - right; right; right. eexists _, _. split; [reflexivity|].
    split; [apply list_elem_of_here|]. eexists. split; reflexivity.
Defined.










(** ** Writes to a collection *)

Lemma coll_set_coll (name name' : string) (l : list Doc) (w : World) :
  coll (set_coll name l w) name' = if decide (name = name') then l else coll w name'.
Proof.
  unfold coll, set_coll; cbn. rewrite lookup_insert.
  by destruct (decide (name = name')).
Qed.

Lemma coll_after_insert (name : string) (doc : Doc) (w : World) :
  coll (after_insert name doc w) name = coll w name ++ [doc].
Proof. unfold after_insert. rewrite coll_set_coll. by rewrite decide_True. Qed.

Lemma matches_singleton (k : string) (v : Value) (d : Doc) :
  matches {[ k := v ]} d ↔ d !! k = Some v.
Proof. unfold matches. by rewrite map_Forall_singleton. Qed.

Lemma matches_pair_key (user_id module_id : string) (d : Doc) :
  matches (pair_key user_id module_id) d ↔
  d !! "user_id" = Some (VStr user_id) ∧ d !! "module_id" = Some (VStr module_id).
Proof.
  unfold matches, pair_key. rewrite map_Forall_insert by done.
  by rewrite map_Forall_singleton.
Qed.

(** What BSON encodes: a document all of whose values are encodable. *)
Lemma doc_encodable_spec (d : Doc) :
  doc_encodable d = true ↔ map_Forall (λ _ v, encodable v = true) d.
Proof.
  unfold doc_encodable. cbn [encodable]. rewrite bool_decide_eq_true.
  by rewrite map_Forall_fmap.
Qed.

Lemma doc_encodable_insert (k : string) (v : Value) (d : Doc) :
  encodable v = true → doc_encodable d = true → doc_encodable (<[k := v]> d) = true.
Proof. rewrite !doc_encodable_spec. intros Hv Hd. by apply map_Forall_insert_2. Qed.

Lemma doc_encodable_false (d : Doc) (k : string) (v : Value) :
  d !! k = Some v → encodable v = false → doc_encodable d = false.
Proof.
  intros Hk Hv. apply not_true_is_false. rewrite doc_encodable_spec.
  intros H. specialize (H k v Hk). cbn in H. congruence.
Qed.

Lemma doc_encodable_union (d1 d2 : Doc) :
  doc_encodable d1 = true → doc_encodable d2 = true → doc_encodable (d1 ∪ d2) = true.
Proof. rewrite !doc_encodable_spec. apply map_Forall_union_2. Qed.

Lemma pair_key_encodable (user_id module_id : string) :
  doc_encodable (pair_key user_id module_id) = true.
Proof.
  unfold pair_key. apply doc_encodable_insert; [done|].
  apply doc_encodable_insert; [done|]. by apply doc_encodable_spec.
Qed.

(** An insertion of an encodable document without [_id] succeeds when the
    generated identifier is not in use: the document is appended with that
    identifier. *)
Lemma insert_one_fresh (name : string) (data : Doc) (w : World) :
  data !! "_id" = None → doc_encodable data = true → unused_id (next_id w) name w →
  insert_one name data w
    = (Return (VOid (next_id w)),
       after_insert name (<["_id" := VOid (next_id w)]> data) w).
Proof.
  intros Hd Henc Hfresh. unfold insert_one, with_id, new_ObjectId. rewrite Hd.
  run_st. fold (next_id w). rewrite doc_encodable_insert by done.
  unfold append_doc. cbn [coll collections oid_source oid_used].
  rewrite lookup_insert_eq.
  rewrite decide_False; [reflexivity|].
  intros Hex. apply Exists_exists in Hex as (d & Hin & Heq).
  unfold unused_id in Hfresh. rewrite Forall_forall in Hfresh.
  by apply (Hfresh d Hin).
Qed.

(** Whatever happens, an insertion appends at most one document. *)
Lemma append_doc_grows (name : string) (doc : Doc) (w w' : World) (o : outcome Value) :
  append_doc name doc w = (o, w') →
  (∀ name', name' ≠ name → coll w' name' = coll w name') ∧
  (coll w' name = coll w name ∨ coll w' name = coll w name ++ [doc]).
Proof.
  unfold append_doc.
  destruct (decide (Exists (λ d : Doc, d !! "_id" = doc !! "_id") (coll w name)));
    intros [= <- <-].
  - auto.
  - split.
    + intros name' Hne. rewrite coll_set_coll. by rewrite decide_False.
    + right. rewrite coll_set_coll. by rewrite decide_True.
Qed.

Lemma insert_one_grows (name : string) (data : Doc) (w w' : World) (o : outcome Value) :
  insert_one name data w = (o, w') →
  (∀ name', name' ≠ name → coll w' name' = coll w name') ∧
  (coll w' name = coll w name ∨ ∃ doc, coll w' name = coll w name ++ [doc]).
Proof.
  unfold insert_one, with_id, new_ObjectId, overflow.
  destruct (data !! "_id"); run_st;
    (match goal with |- context [doc_encodable ?d] => destruct (doc_encodable d) end);
    intros H; try (injection H as <- <-; by auto);
    apply append_doc_grows in H as [H1 [H2 | H2]]; eauto.
Qed.

(** ** [POST /api/modules] then [GET /api/modules/{module_id}] *)

Lemma create_document_fresh (h : Database) (name : string) (data : Doc) (w : World) :
  data !! "_id" = None → doc_encodable data = true → unused_id (next_id w) name w →
  create_document (Some h) name data w
    = (Return (ObjectId_str (next_id w)),
       after_insert name (<["_id" := VOid (next_id w)]> data) w).
Proof.
  intros Hd Henc Hfresh. unfold create_document. run_st.
  by rewrite insert_one_fresh.
Qed.

Lemma find_one_last (name : string) (k : string) (v : Value) (doc : Doc) (w : World) (l : list Doc) :
  coll w name = l ++ [doc] →
  Forall (λ d : Doc, d !! k ≠ Some v) l → doc !! k = Some v →
  find_one name {[ k := v ]} w = (Return (Some doc), w).
Proof.
  intros Hl Hnone Hdoc. unfold find_one. rewrite Hl.
  rewrite list_find_app_r.
  - cbn. rewrite decide_True by by apply matches_singleton. reflexivity.
  - apply list_find_None. eapply Forall_impl; [exact Hnone|].
    intros d Hd Hm. by apply matches_singleton in Hm.
Qed.

Lemma module_dump_no_id (m : Module_.t) :
  Module_.model_dump m !! "_id" = None ∧ Module_.model_dump m !! "id" = None.
Proof. unfold Module_.model_dump. by map_lookups. Qed.

Section RoundTrip.
Variable conv : Conversions.

Lemma field_opt_str_value (d : Doc) (k : string) (o : option string) :
  field_opt_str d k = Some o → opt_str o = default VNone (d !! k).
Proof.
  unfold field_opt_str. destruct (d !! k) as [[]|]; try done; by intros [= <-].
Qed.

Lemma timestamp_validate_with_inv (v : Value) (ts : Timestamp.t) :
  Timestamp_validate_with conv v = Some ts →
  same_timestamp conv v (VDict (Timestamp.model_dump ts)) ∧ 0 ≤ Timestamp.time ts.
Proof.
  destruct v as [| | | | | |d]; try done. cbn. unfold field_str, field_int_ge0_with.
  destruct (d !! "label") as [[]|] eqn:El; try done. cbn.
  destruct (d !! "time") as [v|] eqn:Et; try done. cbn.
  destruct (to_int conv v) as [n|] eqn:En; try done. cbn.
  case_bool_decide; [|done]. intros [= <-]. split; [|done].
  eexists _, _, _, _. by repeat split.
Qed.

Lemma resource_validate_with_inv (v : Value) (r : Resource.t) :
  Resource_validate_with conv v = Some r →
  same_resource conv v (VDict (Resource.model_dump r)).
Proof.
  destruct v as [| | | | | |d]; try done. cbn. unfold field_str, field_url_with.
  destruct (d !! "label") as [[]|] eqn:El; try done. cbn.
  destruct (d !! "url") as [[]|] eqn:Eu; try done.
  destruct (HttpUrl conv s0) as [u|] eqn:Ec; try done. cbn.
  destruct (field_opt_str d "type") as [o|] eqn:Et; try done. cbn.
  intros [= <-]. eexists _, _, _, _. repeat split; try done.
  unfold Resource.model_dump. cbn. by rewrite (field_opt_str_value d "type" o).
Qed.

Lemma field_list_inv {A} (validate : Value → option A) (dump : A → Value)
    (R : Value → Value → Prop) (d : Doc) (k : string) (l : list A) :
  (∀ v x, validate v = Some x → R v (dump x)) →
  field_list validate d k = Some l →
  Forall2 R (body_list d k) (dump <$> l).
Proof.
  intros HR. unfold field_list, body_list.
  destruct (d !! k) as [[]|]; try done.
  - intros Hl%mapM_Some. apply Forall2_fmap_r.
    eapply Forall2_impl; [exact Hl|]. intros v x. apply HR.
  - intros [= <-]. constructor.
Qed.

(** What validation accepts, the dictionary of the model holds. *)
Lemma validate_with_holds (d : Doc) (m : Module_.t) :
  Module_validate_with conv (VDict d) = Some m →
  holds_module conv d (Module_.model_dump m) ∧
  Forall (λ ts, 0 ≤ Timestamp.time ts) (Module_.timestamps m).
Proof.
  cbn. unfold field_str at 1.
  destruct (d !! "title") as [[]|] eqn:Etitle; try done. cbn.
  destruct (field_opt_str d "description") as [description|] eqn:Ed; try done. cbn.
  unfold field_url_with.
  destruct (d !! "video_url") as [[]|] eqn:Ev; try done.
  destruct (HttpUrl conv s0) as [video_url|] eqn:Ec; try done. cbn.
  destruct (field_opt_url_with conv d "thumbnail_url") as [thumbnail_url|] eqn:Et;
    try done. cbn.
  destruct (field_opt_str d "category") as [category|] eqn:Ecat; try done. cbn.
  destruct (field_list (Timestamp_validate_with conv) d "timestamps")
    as [timestamps|] eqn:Ets; try done. cbn.
  destruct (field_list (Resource_validate_with conv) d "resources")
    as [resources|] eqn:Ers; try done. cbn.
  intros [= <-]. unfold holds_module, Module_.model_dump.
  cbn [Module_.title Module_.description Module_.video_url Module_.thumbnail_url
       Module_.category Module_.timestamps Module_.resources].
  map_lookups. split; [|].
  - split; [done|]. split; [by rewrite (field_opt_str_value d "description" description)|].
    split; [by rewrite (field_opt_str_value d "category" category)|].
    split; [by eexists _, _|]. split; [|split].
    + unfold field_opt_url_with in Et.
      destruct (d !! "thumbnail_url") as [[]|]; try done;
        try (by injection Et as <-).
      destruct (HttpUrl conv s1) as [u|]; [|done]. injection Et as <-. by exists u.
    + eexists. split; [reflexivity|].
      apply (field_list_inv (Timestamp_validate_with conv)
               (λ ts, VDict (Timestamp.model_dump ts))); [|done].
      intros v x Hx. by apply timestamp_validate_with_inv.
    + eexists. split; [reflexivity|].
      apply (field_list_inv (Resource_validate_with conv)
               (λ r, VDict (Resource.model_dump r))); [|done].
      apply resource_validate_with_inv.
  - unfold field_list in Ets. destruct (d !! "timestamps") as [[]|]; try done.
    + apply mapM_Some in Ets. clear -Ets.
      induction Ets as [|v ts l l' Hv _ IH]; constructor; [|done].
      by apply timestamp_validate_with_inv in Hv as [_ ?].
    + injection Ets as <-. constructor.
Qed.
End RoundTrip.

Lemma holds_module_ext (conv : Conversions) (d r r' : Doc) :
  (∀ k, k ≠ "id" → k ≠ "_id" → r' !! k = r !! k) →
  holds_module conv d r → holds_module conv d r'.
Proof. intros H. unfold holds_module. by rewrite !H by done. Qed.

Lemma timestamp_dump_encodable (ts : Timestamp.t) :
  0 ≤ Timestamp.time ts < 2 ^ 63 → encodable (VDict (Timestamp.model_dump ts)) = true.
Proof.
  intros Ht. apply doc_encodable_spec. unfold Timestamp.model_dump.
  apply map_Forall_insert_2; [done|]. apply map_Forall_singleton.
  cbn. unfold int64. apply andb_true_iff. split; [apply Z.leb_le|apply Z.ltb_lt]; lia.
Qed.

Lemma resource_dump_encodable (r : Resource.t) :
  encodable (VDict (Resource.model_dump r)) = true.
Proof.
  apply doc_encodable_spec. unfold Resource.model_dump.
  repeat (apply map_Forall_insert_2; [by destruct r as [? ? []]|]).
  apply map_Forall_empty.
Qed.

(** The dictionary of a module is encodable when its times fit in 64 bits. *)
Lemma module_dump_encodable (m : Module_.t) :
  Forall (λ ts, 0 ≤ Timestamp.time ts < 2 ^ 63) (Module_.timestamps m) →
  doc_encodable (Module_.model_dump m) = true.
Proof.
  intros Hts. apply doc_encodable_spec. unfold Module_.model_dump.
  assert (∀ o, encodable (opt_str o) = true) as Hopt by (by intros []).
  repeat (apply map_Forall_insert_2; [first [done | apply Hopt | idtac]|]).
  - cbn [encodable]. induction Hts as [|ts l Hts _ IH]; [done|].
    rewrite fmap_cons. cbn [forallb]. rewrite IH.
    by rewrite (timestamp_dump_encodable ts Hts).
  - cbn [encodable]. induction (Module_.resources m) as [|r l IH]; [done|].
    rewrite fmap_cons. cbn [forallb]. rewrite IH.
    by rewrite (resource_dump_encodable r).
  - apply map_Forall_empty.
Qed.

(** C4.  Whatever conversions pydantic makes: with a usable handle and a
    store that generates an identifier no module has, posting a valid body
    whose times fit in 64 bits returns [{id}], and the lookup of that [id]
    then returns (status 200) a record whose [id] is the returned string,
    which has no [_id], and which has the field values of the body: texts as
    posted, null for an optional text that is absent, each URL as [HttpUrl]
    returns it, each time as the integer it converts to. *)
Theorem create_then_get_module (conv : Conversions) (h : Database) (d : Doc)
    (m : Module_.t) (w : World) :
  Module_validate_with conv (VDict d) = Some m →
  Forall (λ ts, Timestamp.time ts < 2 ^ 63) (Module_.timestamps m) →
  unused_id (next_id w) "module" w →
  ∃ (id : string) (w' : World) (r : Doc),
    post_api_modules_with conv (Some h) (VDict d) w = (Return {[ "id" := VStr id ]}, w') ∧
    get_module (Some h) id w' = (Return (Some r), w') ∧
    r !! "id" = Some (VStr id) ∧ r !! "_id" = None ∧
    holds_module conv d r.
Proof.
  intros Hval Hfit Hfresh. destruct (module_dump_no_id m) as [Hno_id Hno_id'].
  destruct (validate_with_holds conv d m Hval) as [Hholds Hpos].
  assert (doc_encodable (Module_.model_dump m) = true) as Henc.
  { apply module_dump_encodable. rewrite Forall_forall in Hfit, Hpos.
    apply Forall_forall. intros ts Hts. split; auto. }
  set (o := next_id w). set (doc := <["_id" := VOid o]> (Module_.model_dump m)).
  exists (ObjectId_str o), (after_insert "module" doc w),
    (delete "_id" (<["id" := VStr (ObjectId_str o)]> doc)).
  split; [|split; [|split; [|split]]].
  - unfold post_api_modules_with. rewrite Hval.
    unfold create_module. run_st. by rewrite create_document_fresh.
  - unfold get_module. run_st. rewrite ObjectId_of_str_str by apply next_id_length.
    rewrite (find_one_last "module" "_id" (VOid o) doc _ (coll w "module")).
    + assert (falsy (Some doc) = false) as ->.
      { apply bool_decide_eq_false_2. intros E.
        assert (doc !! "_id" = None) as E' by (rewrite E; apply lookup_empty).
        unfold doc in E'. by rewrite lookup_insert_eq in E'. }
      rewrite (to_str_id_with_id doc (VOid o)); [done| |done].
      apply lookup_insert_eq.
    + apply coll_after_insert.
    + exact Hfresh.
    + apply lookup_insert_eq.
  - rewrite lookup_delete_ne by done. apply lookup_insert_eq.
  - apply lookup_delete_eq.
  - apply (holds_module_ext conv d (Module_.model_dump m)); [|done].
    intros k Hk Hk'. rewrite lookup_delete_ne by done.
    rewrite lookup_insert_ne by done. unfold doc. by rewrite lookup_insert_ne.
Qed.

(** A body with every field, posted to the empty store. *)
Lemma create_then_get_module_witness :
  ∃ (id : string) (w' : World) (r : Doc),
    post_api_modules_with normalising (Some live_db) (VDict full_body) empty_world
      = (Return {[ "id" := VStr id ]}, w') ∧
    get_module (Some live_db) id w' = (Return (Some r), w') ∧
    r !! "id" = Some (VStr id) ∧ r !! "_id" = None ∧
    holds_module normalising full_body r.
Proof.
  apply (create_then_get_module normalising live_db full_body full_module empty_world).
  - vm_compute. reflexivity.
  - repeat constructor.
  - constructor.
Defined.

(** C4 as stated fails: the video URL [https://example.com] is stored and
    comes back as [https://example.com/], which is not the text posted. *)
Lemma bare_host_url_not_kept :
  let answer := post_api_modules_with normalising (Some live_db)
                  (VDict bare_host_body) empty_world in
  let r : Doc :=
    {[ "id" := VStr "303030303030303030303030";
       "title" := VStr "Routines";
       "description" := VNone;
       "video_url" := VStr "https://example.com/";
       "thumbnail_url" := VNone;
       "category" := VNone;
       "timestamps" := VList [];
       "resources" := VList [] ]} in
  bare_host_body !! "video_url" = Some (VStr "https://example.com") ∧
  fst answer = Return {[ "id" := VStr "303030303030303030303030" ]} ∧
  fst (get_module (Some live_db) "303030303030303030303030" (snd answer))
    = Return (Some r) ∧
  r !! "video_url" = Some (VStr "https://example.com/") ∧
  r !! "video_url" ≠ bare_host_body !! "video_url".
Proof. repeat split; by vm_compute. Qed.

(** ** [POST /api/seed] *)

Lemma next_id_after_insert (name : string) (doc : Doc) (w : World) :
  next_id (after_insert name doc w) = proj1_sig (oid_source w (S (oid_used w))).
Proof. reflexivity. Qed.

Lemma seed_modules_present (h : Database) (w : World) :
  db_bool h = Return true → coll w "module" ≠ [] →
  seed_modules (Some h) w
    = (Return {[ "status" := VStr "ok";
                 "message" := VStr "Modules already exist";
                 "count" := VInt (Z.of_nat (length (coll w "module"))) ]}, w).
Proof.
  intros Hbool Hne. unfold seed_modules. run_st. rewrite Hbool.
  unfold count_documents. rewrite filter_matches_empty.
  rewrite bool_decide_eq_true_2; [reflexivity|].
  destruct (coll w "module"); [done|]. cbn [length]. lia.
Qed.

(** The samples are built with [Module(...)], [Timestamp(...)] and
    [Resource(...)], which validate their arguments: every sample meets the
    constraints, so none of the constructions raises. *)
Lemma samples_meet_constraints : Forall constraints_hold samples.
Proof.
  unfold samples, constraints_hold.
  repeat constructor; try (intros u [= <-]); try reflexivity; cbn; lia.
Qed.

(** When the truth value of the handle cannot be taken, [if db] raises and the
    seeding is answered 500 with the store as it was. *)
Lemma seed_modules_truth_raises (h : Database) (e : exn) (w : World) :
  db_bool h = Raise e →
  seed_modules (Some h) w = (Raise (HTTPException 500 (exn_str e)), w).
Proof. intros Hbool. unfold seed_modules. run_st. by rewrite Hbool. Qed.

(** C5.  With the handle of pymongo the seeding never inserts: the condition
    [if db] asks the handle for its truth value, which a [Database] refuses,
    so that every call is answered 500 with the text of that refusal and the
    store as it was.  On the empty store, where three samples were to be
    inserted, the module collection stays empty.  The same handle passes the
    test [db is not None] of [test_database], which reports the connection. *)
Theorem seed_modules_truth_test_fails (w : World) :
  seed_modules (Some pymongo_db) w
    = (Raise (HTTPException 500
         "Database objects do not implement truth value testing or bool(). Please compare with None instead: database is not None"),
       w) ∧
  status_of (fst (seed_modules (Some pymongo_db) w)) = 500 ∧
  coll (snd (seed_modules (Some pymongo_db) empty_world)) "module" = [] ∧
  ∀ env, ∃ report,
    test_database (Some pymongo_db) env = Return report ∧
    report !! "database" = Some (VStr "✅ Connected & Working").
Proof.
  split; [|split; [|split]].
  - exact (seed_modules_truth_raises pymongo_db _ w eq_refl).
  - by rewrite (seed_modules_truth_raises pymongo_db _ w eq_refl).
  - by rewrite (seed_modules_truth_raises pymongo_db _ empty_world eq_refl).
  - intros env. eexists. split; [reflexivity|]. by vm_compute.
Qed.

(** ** [POST /api/progress] *)

Section Filter.
Context {A : Type} (P : A → Prop) `{!∀ x, Decision (P x)}.

Lemma filter_none (l : list A) : Forall (λ x, ¬ P x) l → filter P l = [].
Proof.
  induction 1 as [|x l Hx _ IH]; [reflexivity|].
  by rewrite filter_cons_False.
Qed.

(** [find_one] returns the first of the documents that [find] returns. *)
Lemma list_find_head_filter (l : list A) :
  snd <$> list_find P l = head (filter P l).
Proof.
  induction l as [|x l IH]; [reflexivity|].
  cbn [list_find]. rewrite filter_cons.
  destruct (decide (P x)); [reflexivity|].
  rewrite <- IH. by destruct (list_find P l) as [[]|].
Qed.

Lemma list_find_split (l : list A) (i : nat) (x : A) :
  list_find P l = Some (i, x) →
  l = take i l ++ x :: drop (S i) l ∧ filter P (take i l) = [] ∧ P x ∧
  (i < length l)%nat.
Proof.
  intros (Hi & Hx & Hbefore)%list_find_Some.
  split; [by rewrite take_drop_middle|]. split; [|split; [done|]].
  - apply filter_none. apply Forall_forall. intros y Hy.
    apply list_elem_of_lookup in Hy as [j Hj].
    pose proof (lookup_lt_Some _ _ _ Hj) as Hlt. rewrite length_take in Hlt.
    rewrite lookup_take_lt in Hj by lia. apply (Hbefore j y Hj). lia.
  - by eapply lookup_lt_Some.
Qed.

(** Overwriting the first match, when it is the only one, leaves one match. *)
Lemma filter_insert_unique (l : list A) (i : nat) (x y : A) :
  list_find P l = Some (i, x) → (length (filter P l) ≤ 1)%nat → P y →
  filter P (<[i := y]> l) = [y].
Proof.
  intros (Hl & Hpre & Hx & Hi)%list_find_split Hone Hy.
  rewrite Hl, filter_app, Hpre, filter_cons_True in Hone by done.
  cbn in Hone.
  assert (filter P (drop (S i) l) = []) as Hpost
    by (destruct (filter P (drop (S i) l)); [done|cbn in Hone; lia]).
  rewrite insert_take_drop by done.
  rewrite filter_app, Hpre, filter_cons_True by done. by rewrite Hpost.
Qed.
End Filter.

Lemma progress_dump_fields (p : Progress.t) :
  holds_progress (Progress.model_dump p) p ∧ Progress.model_dump p !! "_id" = None.
Proof. unfold holds_progress, Progress.model_dump. by map_lookups. Qed.

(** The position of a payload fits in 64 bits. *)
Lemma int64_spec (n : Z) : int64 n = true ↔ - 2 ^ 63 ≤ n < 2 ^ 63.
Proof. unfold int64. rewrite andb_true_iff, Z.leb_le, Z.ltb_lt. done. Qed.

Lemma progress_dump_encodable (p : Progress.t) :
  doc_encodable (Progress.model_dump p) = int64 (Progress.last_position p).
Proof.
  destruct (int64 (Progress.last_position p)) eqn:E.
  - apply doc_encodable_spec. unfold Progress.model_dump.
    repeat (apply map_Forall_insert_2; [done|]). apply map_Forall_empty.
  - apply (doc_encodable_false _ "last_position" (VInt (Progress.last_position p)));
      [|done].
    unfold Progress.model_dump. by map_lookups.
Qed.

(** A position that does not fit in 64 bits cannot be written: the request is
    answered 500 with the text of the [OverflowError] and the store is left as
    it was. *)
Lemma save_progress_overflow (h : Database) (p : Progress.t) (w : World) :
  2 ^ 63 ≤ Progress.last_position p →
  save_progress (Some h) p w
    = (Raise (HTTPException 500 "MongoDB can only handle up to 8-byte ints"), w).
Proof.
  intros Hbig. unfold save_progress, update_one.
  rewrite progress_dump_encodable.
  assert (int64 (Progress.last_position p) = false) as ->.
  { apply not_true_is_false. rewrite int64_spec. lia. }
  rewrite andb_false_r. reflexivity.
Qed.

(** One request: if the pair has at most one record, and the store generates
    an unused identifier in case it has none, a request whose position fits in
    64 bits succeeds and the pair has one record, which carries the payload. *)
Lemma save_progress_step (h : Database) (p : Progress.t) (w : World) :
  let u := Progress.user_id p in
  let m := Progress.module_id p in
  0 ≤ Progress.last_position p < 2 ^ 63 →
  (length (stored_progress u m w) ≤ 1)%nat →
  (stored_progress u m w = [] → unused_id (next_id w) "progress" w) →
  ∃ d w',
    save_progress (Some h) p w = (Return (to_str_id (Some d)), w') ∧
    stored_progress u m w' = [d] ∧ holds_progress d p ∧
    ∀ u' m', (u', m') ≠ (u, m) → stored_progress u' m' w' = stored_progress u' m' w.
Proof.
  intros u m Hfit Hone Hfresh.
  destruct (progress_dump_fields p) as [(Fu & Fm & Fl & Fc) Fid].
  assert (doc_encodable (Progress.model_dump p) = true) as Henc.
  { rewrite progress_dump_encodable. apply int64_spec. lia. }
  clear Hfit.
  unfold save_progress. fold (pair_key (Progress.user_id p) (Progress.module_id p)).
  fold u m. run_st. unfold update_one. rewrite pair_key_encodable, Henc.
  cbn [andb].
  assert (∀ d, doc_encodable d = true → doc_encodable (Progress.model_dump p ∪ d) = true)
    as Hunion by (intros d; by apply doc_encodable_union).
  clear Henc.
  destruct (list_find (matches (pair_key u m)) (coll w "progress")) as [[i d0]|] eqn:Efind.
  - set (d := Progress.model_dump p ∪ d0).
    assert (holds_progress d p) as Hd
      by (repeat split; by apply lookup_union_Some_l).
    assert (matches (pair_key u m) d) as Hm
      by (apply matches_pair_key; split; apply Hd).
    exists d, (set_coll "progress" (<[i := d]> (coll w "progress")) w).
    assert (stored_progress u m
              (set_coll "progress" (<[i := d]> (coll w "progress")) w) = [d]) as Hs.
    { unfold stored_progress. rewrite coll_set_coll, decide_True by done.
      by eapply filter_insert_unique. }
    split; [|split; [done|split; [done|]]].
    + unfold find_one. rewrite list_find_head_filter.
      unfold stored_progress in Hs. by rewrite Hs.
    + intros u' m' Hne. unfold stored_progress.
      rewrite coll_set_coll, decide_True by done.
      apply list_find_split in Efind as (Hl & _ & Hd0 & Hi).
      rewrite insert_take_drop by done. rewrite Hl at 3.
      assert (¬ matches (pair_key u' m') d) as H1.
      { intros [H1a H1b]%matches_pair_key.
        destruct Hd as (Hdu & Hdm & _). rewrite Hdu in H1a. rewrite Hdm in H1b.
        destruct Hne. fold u m in H1a, H1b. congruence. }
      assert (¬ matches (pair_key u' m') d0) as H2.
      { intros [H2a H2b]%matches_pair_key.
        apply matches_pair_key in Hd0 as [H0a H0b].
        destruct Hne. congruence. }
      rewrite !filter_app. by rewrite !filter_cons_False.
  - apply list_find_None in Efind.
    assert (stored_progress u m w = []) as Hnone by by apply filter_none.
    set (data := Progress.model_dump p ∪ pair_key u m).
    assert (data !! "_id" = None) as Hdata.
    { apply lookup_union_None. split; [done|]. unfold pair_key. by map_lookups. }
    assert (doc_encodable data = true) as Hdenc
      by (apply Hunion, pair_key_encodable).
    clear Hunion. run_st. rewrite (insert_one_fresh "progress" data w Hdata Hdenc (Hfresh Hnone)).
    set (d := <["_id" := VOid (next_id w)]> data).
    assert (holds_progress d p) as Hd.
    { repeat split; unfold d; rewrite lookup_insert_ne by done;
        by apply lookup_union_Some_l. }
    assert (matches (pair_key u m) d) as Hm
      by (apply matches_pair_key; split; apply Hd).
    exists d, (after_insert "progress" d w).
    assert (stored_progress u m (after_insert "progress" d w) = [d]) as Hs.
    { unfold stored_progress. rewrite coll_after_insert, filter_app.
      unfold stored_progress in Hnone. rewrite Hnone.
      by rewrite filter_cons_True. }
    split; [|split; [done|split; [done|]]].
    + unfold find_one. rewrite list_find_head_filter.
      unfold stored_progress in Hs. by rewrite Hs.
    + intros u' m' Hne. unfold stored_progress.
      rewrite coll_after_insert, filter_app, filter_cons_False; [by rewrite app_nil_r|].
      intros [H1a H1b]%matches_pair_key.
      destruct Hd as (Hdu & Hdm & _). rewrite Hdu in H1a. rewrite Hdm in H1b.
      destruct Hne. fold u m in H1a, H1b. congruence.
Qed.

(** Once the pair has its record, every further request for the pair succeeds
    and overwrites that record. *)
Lemma post_progress_all_kept (h : Database) (u m : string) (qs : list Progress.t) :
  Forall (λ q, Progress.user_id q = u ∧ Progress.module_id q = m ∧
               0 ≤ Progress.last_position q < 2 ^ 63) qs →
  ∀ (w : World) (d0 : Doc) (p0 : Progress.t),
    stored_progress u m w = [d0] → holds_progress d0 p0 →
    ∃ os w' d,
      post_progress_all (Some h) qs w = (os, w') ∧
      Forall (λ o, status_of o = 200) os ∧
      stored_progress u m w' = [d] ∧
      holds_progress d (default p0 (last qs)).
Proof.
  induction 1 as [|q qs (Hu & Hm & Hfit) _ IH]; intros w d0 p0 Hs Hd0.
  - exists [], w, d0. split; [done|]. split; [constructor|]. by split.
  - destruct (save_progress_step h q w) as (d1 & w1 & E1 & Hs1 & Hd1 & _).
    { done. }
    { rewrite Hu, Hm, Hs. cbn. lia. }
    { rewrite Hu, Hm, Hs. done. }
    rewrite Hu, Hm in Hs1.
    destruct (IH w1 d1 q Hs1 Hd1) as (os & w' & d & E & Hos & Hs' & Hd).
    exists (Return (to_str_id (Some d1)) :: os), w', d.
    split; [|split; [|split]].
    + cbn [post_progress_all]. by rewrite E1, E.
    + by constructor.
    + done.
    + rewrite last_cons. by destruct (last qs).
Qed.

(** C2.  With a usable handle, from a store in which the pair has at most one
    progress record (and which generates an unused identifier in case it has
    none), after any non-empty sequence of progress posts for the pair whose
    positions fit in 64 bits, which is what the store can write, every post
    was answered 200, the pair has exactly one record, and that record
    carries the fields of the last post. *)
Theorem progress_last_write_wins (h : Database) (u m : string)
    (qs : list Progress.t) (p : Progress.t) (w : World) :
  Forall (λ q, Progress.user_id q = u ∧ Progress.module_id q = m ∧
               0 ≤ Progress.last_position q < 2 ^ 63) qs →
  last qs = Some p →
  (length (stored_progress u m w) ≤ 1)%nat →
  (stored_progress u m w = [] → unused_id (next_id w) "progress" w) →
  ∃ os w' d,
    post_progress_all (Some h) qs w = (os, w') ∧
    Forall (λ o, status_of o = 200) os ∧
    stored_progress u m w' = [d] ∧
    holds_progress d p.
Proof.
  intros Hqs Hlast Hone Hfresh.
  destruct qs as [|q qs]; [done|].
  apply Forall_cons in Hqs as [(Hu & Hm & Hfit) Hqs].
  destruct (save_progress_step h q w) as (d1 & w1 & E1 & Hs1 & Hd1 & _).
  { done. }
  { by rewrite Hu, Hm. }
  { by rewrite Hu, Hm. }
  rewrite Hu, Hm in Hs1.
  destruct (post_progress_all_kept h u m qs Hqs w1 d1 q Hs1 Hd1)
    as (os & w' & d & E & Hos & Hs' & Hd).
  exists (Return (to_str_id (Some d1)) :: os), w', d.
  split; [|split; [|split]].
  - cbn [post_progress_all]. by rewrite E1, E.
  - by constructor.
  - done.
  - rewrite last_cons in Hlast. destruct (last qs); injection Hlast as <-; exact Hd.
Qed.

(** Three posts for one pair on the empty store. *)
Lemma progress_last_write_wins_witness :
  ∃ os w' d,
    post_progress_all (Some live_db) [progress_1; progress_2; progress_3] empty_world
      = (os, w') ∧
    Forall (λ o, status_of o = 200) os ∧
    stored_progress "ann" "m1" w' = [d] ∧
    holds_progress d progress_3.
Proof.
  apply (progress_last_write_wins live_db "ann" "m1"
           [progress_1; progress_2; progress_3] progress_3 empty_world).
  - repeat constructor; cbn; lia.
  - reflexivity.
  - change (0 ≤ 1)%nat. lia.
  - intros _. constructor.
Defined.

(** * Further properties of [main.py] and [schemas.py] *)

(** ** [to_str_id], applied twice *)

Lemma to_str_id_cases (d : Doc) :
  d ≠ ∅ →
  (to_str_id (Some d) = Some d ∧ (d !! "_id" = None ∨ d !! "_id" = Some VNone)) ∨
  (∃ v, d !! "_id" = Some v ∧ v ≠ VNone ∧
        to_str_id (Some d) = Some (delete "_id" (<["id" := VStr (py_str v)]> d))).
Proof.
  intros Hne. destruct (d !! "_id") as [v|] eqn:E.
  - destruct (decide (v = VNone)) as [->|Hv].
    + left. split; [|auto]. unfold to_str_id, falsy.
      rewrite bool_decide_eq_false_2 by done. by rewrite E.
    + right. exists v. split; [done|]. split; [done|]. by apply to_str_id_with_id.
  - left. split; [|auto]. unfold to_str_id, falsy.
    rewrite bool_decide_eq_false_2 by done. by rewrite E.
Qed.

(** X1.  Remapping a document that was already remapped changes nothing: the
    handlers may apply [to_str_id] to their own answers. *)
Theorem to_str_id_idempotent (doc : option Doc) :
  to_str_id (to_str_id doc) = to_str_id doc.
Proof.
  destruct doc as [d|]; [|reflexivity].
  destruct (decide (d = ∅)) as [->|Hne]; [reflexivity|].
  destruct (to_str_id_cases d Hne) as [[E _] | (v & Hd & Hv & E)].
  - by rewrite !E.
  - rewrite E. set (r := delete "_id" (<["id" := VStr (py_str v)]> d)).
    unfold to_str_id, falsy. rewrite bool_decide_eq_false_2.
    + assert (r !! "_id" = None) as -> by apply lookup_delete_eq. reflexivity.
    + intros Hr. assert (r !! "id" = None) as Hid by (rewrite Hr; apply lookup_empty).
      unfold r in Hid. rewrite lookup_delete_ne in Hid by done.
      by rewrite lookup_insert_eq in Hid.
Qed.

(** ** The answers of [get_module] *)

Lemma ObjectId_of_str_state {S} (module_id : string) (s : S) :
  snd (ObjectId_of_str module_id s) = s.
Proof.
  unfold ObjectId_of_str. run_st.
  destruct (decide (String.length module_id = 24%nat)); [|reflexivity].
  destruct (fromhex module_id) as [b|]; [|reflexivity].
  by destruct (decide (String.length b = 12%nat)).
Qed.

(** X2.  Whatever the handle, the identifier and the store, [get_module] answers
    200 or 400: its own 404 and every fault end in the 400 of its [except]. *)
Theorem get_module_status_200_or_400 (db : option Database) (module_id : string)
    (w : World) :
  status_of (fst (get_module db module_id w)) = 200 ∨
  status_of (fst (get_module db module_id w)) = 400.
Proof.
  unfold get_module. run_st. destruct db as [h|]; run_st; [|by right].
  destruct (ObjectId_of_str module_id w) as [[o|e] w1]; [|by right].
  unfold find_one.
  destruct (falsy (snd <$> list_find (matches {["_id" := VOid o]}) (coll w1 "module")));
    [by right|by left].
Qed.

(** X3.  With a usable handle, an identifier that has not 24 characters, or
    whose characters [bytes.fromhex] does not decode, is answered 400 with the
    message of [InvalidId], and the store is left as it was. *)
Theorem get_module_malformed_id (h : Database) (module_id : string) (w : World) :
  String.length module_id ≠ 24%nat ∨ fromhex module_id = None →
  get_module (Some h) module_id w
    = (Raise (HTTPException 400
                (repr_str module_id +:+
                 " is not a valid ObjectId, it must be a 12-byte input or a 24-character hex string")),
       w).
Proof.
  intros Hbad. unfold get_module, ObjectId_of_str. run_st.
  destruct (decide (String.length module_id = 24%nat)) as [Hlen|]; [|reflexivity].
  destruct Hbad as [Hbad | ->]; [done|reflexivity].
Qed.

(** A short identifier and one with a letter that is no digit. *)
Lemma get_module_malformed_id_witness :
  get_module (Some live_db) "abc" empty_world
    = (Raise (HTTPException 400
                (repr_str "abc" +:+
                 " is not a valid ObjectId, it must be a 12-byte input or a 24-character hex string")),
       empty_world) ∧
  get_module (Some live_db) "00000000000000000000000g" empty_world
    = (Raise (HTTPException 400
                (repr_str "00000000000000000000000g" +:+
                 " is not a valid ObjectId, it must be a 12-byte input or a 24-character hex string")),
       empty_world).
Proof.
  split.
  - apply (get_module_malformed_id live_db "abc" empty_world). left. cbn. lia.
  - apply (get_module_malformed_id live_db "00000000000000000000000g" empty_world).
    right. reflexivity.
Defined.

(** An identifier of 24 characters with blanks between the digits is decoded,
    to eight bytes, and looked up. *)
Example get_module_blanks_in_id :
  get_module (Some live_db) "00 00 00 00 00 00 00 00 " empty_world
    = (Raise (HTTPException 400 "404: Module not found"), empty_world).
Proof. reflexivity. Qed.

(** ** Reads do not write, and an absent handle *)

Lemma lookups_read_only (db : option Database) (a b : string) (w : World) :
  snd (get_module db a w) = w ∧
  snd (get_progress db a b w) = w ∧
  snd (get_note db a b w) = w.
Proof.
  split; [|split].
  - unfold get_module. run_st. destruct db as [h|]; run_st; [|reflexivity].
    pose proof (ObjectId_of_str_state a w) as Hs.
    destruct (ObjectId_of_str a w) as [[o|e] w1]; cbn in Hs; subst w1; [|reflexivity].
    unfold find_one.
    by destruct (falsy (snd <$> list_find (matches {["_id" := VOid o]}) (coll w "module"))).
  - unfold get_progress, find_one. run_st. destruct db as [h|]; run_st; [|reflexivity].
    by destruct (falsy _).
  - unfold get_note, find_one. run_st. destruct db as [h|]; run_st; [|reflexivity].
    by destruct (falsy _).
Qed.

(** X4.  The three lookups leave the store exactly as it was, whatever they answer. *)
Theorem lookups_leave_store (db : option Database) (a b : string) (w : World) :
  snd (get_module db a w) = w ∧
  snd (get_progress db a b w) = w ∧
  snd (get_note db a b w) = w.
Proof. apply lookups_read_only. Qed.

(** X5.  When [db] is [None], subscripting it raises inside each handler: the
    lookups and the writes of progress and notes answer 500, [get_module]
    answers 400, each with the text of the [TypeError], and nothing is
    written. *)
Theorem absent_handle_answers (a b : string) (p : Progress.t) (n : Note.t) (w : World) :
  let detail := "'NoneType' object is not subscriptable" in
  get_module None a w = (Raise (HTTPException 400 detail), w) ∧
  save_progress None p w = (Raise (HTTPException 500 detail), w) ∧
  get_progress None a b w = (Raise (HTTPException 500 detail), w) ∧
  save_note None n w = (Raise (HTTPException 500 detail), w) ∧
  get_note None a b w = (Raise (HTTPException 500 detail), w).
Proof. repeat split. Qed.

(** ** Upserts keyed by [(user_id, module_id)] *)

Section FilterUpdate.
Context {A : Type} (P : A → Prop) `{!∀ x, Decision (P x)}.

(** Replacing an element that does not pass the filter by another that does
    not pass either leaves the filtered list as it was. *)
Lemma filter_insert_other (l : list A) (i : nat) (x y : A) :
  l !! i = Some x → ¬ P x → ¬ P y → filter P (<[i := y]> l) = filter P l.
Proof.
  intros Hi Hx Hy. pose proof (lookup_lt_Some _ _ _ Hi) as Hlt.
  rewrite insert_take_drop by done.
  rewrite <- (take_drop_middle l i x Hi) at 3.
  rewrite !filter_app. by rewrite !filter_cons_False.
Qed.

Lemma filter_at_most_one_insert (l : list A) (i : nat) (x y : A) :
  list_find P l = Some (i, x) → (length (filter P l) ≤ 1)%nat → P y →
  (length (filter P (<[i := y]> l)) ≤ 1)%nat.
Proof. intros Hf Hone Hy. by rewrite (filter_insert_unique P l i x y). Qed.
End FilterUpdate.

(** A document with the two key fields matches the filter of its own pair and
    of no other pair. *)
Lemma matches_pair_key_of (d : Doc) (u m u' m' : string) :
  d !! "user_id" = Some (VStr u) → d !! "module_id" = Some (VStr m) →
  matches (pair_key u' m') d ↔ (u', m') = (u, m).
Proof.
  intros Hu Hm. rewrite matches_pair_key, Hu, Hm. split.
  - intros [[= ->] [= ->]]. reflexivity.
  - intros [= -> ->]. done.
Qed.

Section Upsert.
Variables (name u m : string) (fields : Doc).
Hypothesis Hu : fields !! "user_id" = Some (VStr u).
Hypothesis Hm : fields !! "module_id" = Some (VStr m).
Hypothesis Hid : fields !! "_id" = None.

Lemma upsert_data_fields :
  let data := fields ∪ pair_key u m in
  data !! "_id" = None ∧
  ∀ o, <["_id" := VOid o]> data !! "user_id" = Some (VStr u) ∧
       <["_id" := VOid o]> data !! "module_id" = Some (VStr m).
Proof.
  split.
  - apply lookup_union_None. split; [done|]. unfold pair_key. by map_lookups.
  - intros o. rewrite !lookup_insert_ne by done.
    split; by apply lookup_union_Some_l.
Qed.

(** The four ways an upsert can go: the first match is overwritten; no match
    and the generated identifier is unused, and a document is appended; no
    match and the identifier is in use, and nothing is written; the fields
    cannot be encoded, and nothing is written. *)
Lemma upsert_cases (w : World) :
  ∃ o w',
    update_one name (pair_key u m) fields true w = (o, w') ∧
    (∀ name', name' ≠ name → coll w' name' = coll w name') ∧
    ((∃ i d0, list_find (matches (pair_key u m)) (coll w name) = Some (i, d0) ∧
              o = Return () ∧
              coll w' name = <[i := fields ∪ d0]> (coll w name)) ∨
     (stored name u m w = [] ∧ unused_id (next_id w) name w ∧ o = Return () ∧
      coll w' name
        = coll w name ++ [<["_id" := VOid (next_id w)]> (fields ∪ pair_key u m)]) ∨
     (stored name u m w = [] ∧ ¬ unused_id (next_id w) name w ∧
      (∃ e, o = Raise e) ∧ coll w' name = coll w name) ∨
     (doc_encodable fields = false ∧ (∃ e, o = Raise e) ∧ coll w' name = coll w name)).
Proof.
  destruct upsert_data_fields as [Hdata _].
  unfold update_one. rewrite pair_key_encodable. cbn [andb].
  destruct (doc_encodable fields) eqn:Henc.
  2:{ eexists _, _. split; [reflexivity|]. split; [done|].
      right; right; right. unfold overflow, raise. eauto. }
  destruct (list_find (matches (pair_key u m)) (coll w name)) as [[i d0]|] eqn:Efind.
  - eexists _, _. split; [reflexivity|]. split.
    + intros name' Hne. rewrite coll_set_coll. by rewrite decide_False.
    + left. exists i, d0. split; [done|]. split; [done|].
      rewrite coll_set_coll. by rewrite decide_True.
  - assert (stored name u m w = []) as Hnone
      by (apply filter_none; by apply (list_find_None (matches (pair_key u m)))).
    unfold insert_one, with_id, new_ObjectId. rewrite Hdata. run_st.
    fold (next_id w). rewrite doc_encodable_insert;
      [|done|by apply doc_encodable_union; [|apply pair_key_encodable]].
    unfold append_doc. cbn [coll collections oid_source oid_used].
    rewrite lookup_insert_eq.
    match goal with |- context [decide ?P] => destruct (decide P) as [Hex|Hnex] end.
    + eexists _, _. split; [reflexivity|]. split; [done|].
      right; right; left. split; [done|]. split; [|split; [eauto|done]].
      intros Hfresh. apply Exists_exists in Hex as (d & Hin & Hd).
      unfold unused_id in Hfresh. rewrite Forall_forall in Hfresh.
      by apply (Hfresh d Hin).
    + eexists _, _. split; [reflexivity|]. split.
      * intros name' Hne. rewrite coll_set_coll. by rewrite decide_False.
      * right; left. split; [done|]. split; [|split; [done|]].
        -- apply Forall_forall. intros d Hin Hd. apply Hnex.
           apply Exists_exists. eauto.
        -- rewrite coll_set_coll. by rewrite decide_True.
Qed.

(** An upsert leaves the documents of every other pair as they were. *)
Lemma upsert_other_pair (w w' : World) (o : outcome unit) (u' m' : string) :
  update_one name (pair_key u m) fields true w = (o, w') →
  (u', m') ≠ (u, m) →
  stored name u' m' w' = stored name u' m' w.
Proof.
  intros E Hne. destruct (upsert_cases w) as (o1 & w1 & E1 & _ & Hcases).
  rewrite E in E1. injection E1 as <- <-. unfold stored.
  destruct upsert_data_fields as [_ Hnew].
  destruct Hcases as [(i & d0 & Hf & _ & ->) | [(_ & _ & _ & ->) |
    [(_ & _ & _ & ->) | (_ & _ & ->)]]]; [| |reflexivity..].
  - apply list_find_Some in Hf as (Hi & Hd0 & _).
    apply matches_pair_key in Hd0 as [H0u H0m].
    apply (filter_insert_other _ _ i d0); [done| |].
    + by rewrite (matches_pair_key_of d0 u m).
    + rewrite (matches_pair_key_of (fields ∪ d0) u m); [done|..];
        by apply lookup_union_Some_l.
  - rewrite filter_app, filter_cons_False; [by rewrite app_nil_r|].
    destruct (Hnew (next_id w)) as [Hnu Hnm].
    by rewrite (matches_pair_key_of _ u m).
Qed.

(** A pair that had at most one document still has at most one. *)
Lemma upsert_same_pair (w w' : World) (o : outcome unit) :
  update_one name (pair_key u m) fields true w = (o, w') →
  (length (stored name u m w) ≤ 1)%nat →
  (length (stored name u m w') ≤ 1)%nat.
Proof.
  intros E Hone. destruct (upsert_cases w) as (o1 & w1 & E1 & _ & Hcases).
  rewrite E in E1. injection E1 as <- <-. unfold stored in *.
  destruct upsert_data_fields as [_ Hnew].
  destruct Hcases as [(i & d0 & Hf & _ & ->) | [(Hs & _ & _ & ->) |
    [(_ & _ & _ & ->) | (_ & _ & ->)]]]; [| |done..].
  - apply (filter_at_most_one_insert _ _ i d0); [done..|].
    apply matches_pair_key. split; by apply lookup_union_Some_l.
  - rewrite filter_app, Hs. cbn [app]. rewrite filter_cons. destruct (decide _); cbn; lia.
Qed.

Lemma upsert_pairs_unique (w w' : World) (o : outcome unit) :
  update_one name (pair_key u m) fields true w = (o, w') →
  pairs_unique name w → pairs_unique name w'.
Proof.
  intros E Hinv u' m'. destruct (decide ((u', m') = (u, m))) as [[= -> ->]|Hne].
  - by eapply upsert_same_pair.
  - by rewrite (upsert_other_pair w w' o u' m').
Qed.

(** The successful upsert, followed by the lookup of the pair. *)
Lemma upsert_then_find (w : World) :
  doc_encodable fields = true →
  (length (stored name u m w) ≤ 1)%nat →
  (stored name u m w = [] → unused_id (next_id w) name w) →
  ∃ d w',
    update_one name (pair_key u m) fields true w = (Return (), w') ∧
    find_one name (pair_key u m) w' = (Return (Some d), w') ∧
    stored name u m w' = [d] ∧
    (∀ k v, fields !! k = Some v → d !! k = Some v) ∧
    (stored name u m w = [] →
       d = <["_id" := VOid (next_id w)]> (fields ∪ pair_key u m)) ∧
    (∀ d0, stored name u m w = [d0] →
       d = fields ∪ d0 ∧ length (coll w' name) = length (coll w name)).
Proof.
  intros Henc Hone Hfresh.
  destruct (upsert_cases w) as (o & w' & E & _ & Hcases).
  destruct upsert_data_fields as [_ Hnew].
  assert (∀ d, stored name u m w' = [d] →
               find_one name (pair_key u m) w' = (Return (Some d), w')) as Hfind.
  { intros d Hd. unfold find_one. rewrite list_find_head_filter.
    unfold stored in Hd. by rewrite Hd. }
  destruct Hcases as [(i & d0 & Hf & -> & Hc) | [(Hs & _ & -> & Hc) |
    [(Hs & Hused & _) | (Hbad & _)]]]; [| | |congruence]; clear Henc.
  - assert (stored name u m w' = [fields ∪ d0]) as Hs'.
    { unfold stored. rewrite Hc. apply (filter_insert_unique _ _ i d0); [done..|].
      apply matches_pair_key. split; by apply lookup_union_Some_l. }
    exists (fields ∪ d0), w'. split; [done|]. split; [by apply Hfind|].
    split; [done|]. split; [|split].
    + intros k v Hk. by apply lookup_union_Some_l.
    + intros Hs. unfold stored in Hs.
      pose proof (list_find_head_filter (matches (pair_key u m)) (coll w name)) as Hh.
      rewrite Hf, Hs in Hh. discriminate Hh.
    + intros d1 Hs.
      pose proof (list_find_head_filter (matches (pair_key u m)) (coll w name)) as Hh.
      unfold stored in Hs. rewrite Hf, Hs in Hh. injection Hh as ->.
      split; [done|]. rewrite Hc. apply length_insert.
  - set (d := <["_id" := VOid (next_id w)]> (fields ∪ pair_key u m)) in *.
    assert (stored name u m w' = [d]) as Hs'.
    { unfold stored in *. rewrite Hc, filter_app, Hs. cbn [app].
      rewrite filter_cons_True; [done|].
      destruct (Hnew (next_id w)) as [Hnu Hnm].
      apply (proj2 (matches_pair_key u m d)). split; [exact Hnu|exact Hnm]. }
    exists d, w'. split; [done|]. split; [by apply Hfind|]. split; [done|].
    split; [|split; [done|]].
    + intros k v Hk. unfold d. rewrite lookup_insert_ne.
      * by apply lookup_union_Some_l.
      * intros <-. congruence.
    + intros d0 Hd0. congruence.
  - by destruct Hused; apply Hfresh.
Qed.
End Upsert.

(** ** [POST] then [GET] of progress and of notes *)

(** The answer to a stored document: the document, or the document with [id]
    in place of [_id]; fields other than those two are as stored. *)
Lemma to_str_id_fields (d : Doc) :
  d ≠ ∅ →
  ∃ r, to_str_id (Some d) = Some r ∧
       ∀ k, k ≠ "_id" → k ≠ "id" → r !! k = d !! k.
Proof.
  intros Hne. destruct (to_str_id_cases d Hne) as [[E _] | (v & _ & _ & E)].
  - by exists d.
  - eexists. split; [exact E|]. intros k H1 H2.
    rewrite lookup_delete_ne by done. by rewrite lookup_insert_ne.
Qed.

(** The remapping of a freshly inserted document: the fields and the text of
    the generated identifier. *)
Lemma to_str_id_inserted (data : Doc) (o : ObjectId) :
  data !! "_id" = None →
  to_str_id (Some (<["_id" := VOid o]> data))
    = Some (<["id" := VStr (ObjectId_str o)]> data).
Proof.
  intros Hd. rewrite (to_str_id_with_id _ (VOid o)); [|apply lookup_insert_eq|done].
  f_equal. apply map_eq. intros k.
  destruct (decide (k = "_id")) as [->|Hk].
  - rewrite lookup_delete_eq. by rewrite lookup_insert_ne.
  - rewrite lookup_delete_ne by done.
    destruct (decide (k = "id")) as [->|Hk'].
    + by rewrite !lookup_insert_eq.
    + rewrite !lookup_insert_ne by done. done.
Qed.

Lemma union_pair_key (fields : Doc) (u m : string) :
  fields !! "user_id" = Some (VStr u) → fields !! "module_id" = Some (VStr m) →
  fields ∪ pair_key u m = fields.
Proof.
  intros Hu Hm. apply map_eq. intros k. rewrite lookup_union.
  destruct (fields !! k) as [v|] eqn:E; [by destruct (pair_key u m !! k)|].
  unfold pair_key.
  destruct (decide (k = "user_id")) as [->|H1]; [congruence|].
  destruct (decide (k = "module_id")) as [->|H2]; [congruence|].
  rewrite lookup_insert_ne by done. by rewrite lookup_singleton_ne.
Qed.

Lemma has_user_id_nonempty (d : Doc) (v : Value) : d !! "user_id" = Some v → d ≠ ∅.
Proof. intros Hd ->. by rewrite lookup_empty in Hd. Qed.

(** X6.  With a usable handle, a pair with at most one record and, if it has none,
    an unused generated identifier: the post of a payload whose position fits
    in 64 bits is answered with a record that carries the payload, the lookup
    of the pair that follows is answered with the same record and writes
    nothing, and the first post for a pair is answered with exactly the
    payload and the text of the new identifier. *)
Theorem save_then_get_progress (h : Database) (p : Progress.t) (w : World) :
  let u := Progress.user_id p in
  let m := Progress.module_id p in
  0 ≤ Progress.last_position p < 2 ^ 63 →
  (length (stored_progress u m w) ≤ 1)%nat →
  (stored_progress u m w = [] → unused_id (next_id w) "progress" w) →
  ∃ r w',
    save_progress (Some h) p w = (Return (Some r), w') ∧
    get_progress (Some h) u m w' = (Return (Some r), w') ∧
    holds_progress r p ∧
    (stored_progress u m w = [] →
       r = <["id" := VStr (ObjectId_str (next_id w))]> (Progress.model_dump p)).
Proof.
  intros u m Hfit Hone Hfresh.
  destruct (progress_dump_fields p) as [(Fu & Fm & Fl & Fc) Fid].
  assert (doc_encodable (Progress.model_dump p) = true) as Henc.
  { rewrite progress_dump_encodable. apply int64_spec. lia. }
  clear Hfit.
  destruct (upsert_then_find "progress" u m (Progress.model_dump p) Fu Fm Fid w
              Henc Hone Hfresh)
    as (d & w' & Eup & Efind & _ & Hfields & Hnew & _).
  assert (d ≠ ∅) as Hne by (eapply has_user_id_nonempty; by apply Hfields).
  destruct (to_str_id_fields d Hne) as (r & Er & Hr).
  exists r, w'. split; [|split; [|split]].
  - unfold save_progress. fold (pair_key (Progress.user_id p) (Progress.module_id p)). fold u m.
    run_st.
    rewrite Eup, Efind. by rewrite Er.
  - unfold get_progress. fold (pair_key u m). run_st. rewrite Efind.
    unfold falsy. rewrite bool_decide_eq_false_2 by done. by rewrite Er.
  - repeat split; rewrite Hr by done; by apply Hfields.
  - intros Hs. rewrite (Hnew Hs), union_pair_key in Er by done.
    rewrite to_str_id_inserted in Er by done. by injection Er as <-.
Qed.

(** The first post of a pair on the empty store. *)
Lemma save_then_get_progress_witness :
  ∃ r w',
    save_progress (Some live_db) progress_1 empty_world = (Return (Some r), w') ∧
    get_progress (Some live_db) "ann" "m1" w' = (Return (Some r), w') ∧
    holds_progress r progress_1 ∧
    (stored_progress "ann" "m1" empty_world = [] →
       r = <["id" := VStr (ObjectId_str (next_id empty_world))]>
             (Progress.model_dump progress_1)).
Proof.
  apply (save_then_get_progress live_db progress_1 empty_world).
  - cbn. lia.
  - change (0 ≤ 1)%nat. lia.
  - intros _. constructor.
Defined.

Lemma note_dump_fields (n : Note.t) :
  holds_note (Note.model_dump n) n ∧ Note.model_dump n !! "_id" = None.
Proof. unfold holds_note, Note.model_dump. by map_lookups. Qed.

Lemma note_dump_encodable (n : Note.t) : doc_encodable (Note.model_dump n) = true.
Proof.
  apply doc_encodable_spec. unfold Note.model_dump.
  repeat (apply map_Forall_insert_2; [done|]). apply map_Forall_empty.
Qed.

(** X7.  The same for notes: the post is answered with a record that carries the
    note, the lookup that follows is answered with the same record, and the
    first post of a pair is answered with the note and the new identifier. *)
Theorem save_then_get_note (h : Database) (n : Note.t) (w : World) :
  let u := Note.user_id n in
  let m := Note.module_id n in
  (length (stored "note" u m w) ≤ 1)%nat →
  (stored "note" u m w = [] → unused_id (next_id w) "note" w) →
  ∃ r w',
    save_note (Some h) n w = (Return (Some r), w') ∧
    get_note (Some h) u m w' = (Return (Some r), w') ∧
    holds_note r n ∧
    stored "note" u m w' ≠ [] ∧
    (stored "note" u m w = [] →
       r = <["id" := VStr (ObjectId_str (next_id w))]> (Note.model_dump n)).
Proof.
  intros u m Hone Hfresh.
  destruct (note_dump_fields n) as [(Fu & Fm & Fc) Fid].
  destruct (upsert_then_find "note" u m (Note.model_dump n) Fu Fm Fid w
              (note_dump_encodable n) Hone Hfresh)
    as (d & w' & Eup & Efind & Hs' & Hfields & Hnew & _).
  assert (d ≠ ∅) as Hne by (eapply has_user_id_nonempty; by apply Hfields).
  destruct (to_str_id_fields d Hne) as (r & Er & Hr).
  exists r, w'. split; [|split; [|split; [|split]]].
  - unfold save_note. fold (pair_key (Note.user_id n) (Note.module_id n)). fold u m.
    run_st.
    rewrite Eup, Efind. by rewrite Er.
  - unfold get_note. fold (pair_key u m). run_st. rewrite Efind.
    unfold falsy. rewrite bool_decide_eq_false_2 by done. by rewrite Er.
  - repeat split; rewrite Hr by done; by apply Hfields.
  - by rewrite Hs'.
  - intros Hs. rewrite (Hnew Hs), union_pair_key in Er by done.
    rewrite to_str_id_inserted in Er by done. by injection Er as <-.
Qed.

(** The first note of a pair on the empty store. *)
Lemma save_then_get_note_witness :
  ∃ r w',
    save_note (Some live_db) note_1 empty_world = (Return (Some r), w') ∧
    get_note (Some live_db) "ann" "m1" w' = (Return (Some r), w') ∧
    holds_note r note_1 ∧
    stored "note" "ann" "m1" w' ≠ [] ∧
    (stored "note" "ann" "m1" empty_world = [] →
       r = <["id" := VStr (ObjectId_str (next_id empty_world))]>
             (Note.model_dump note_1)).
Proof.
  apply (save_then_get_note live_db note_1 empty_world).
  - change (0 ≤ 1)%nat. lia.
  - intros _. constructor.
Defined.

(** X8.  A post, with a position that fits in 64 bits, for a pair that has its
    record overwrites the record in place: the collection keeps its length,
    the record keeps [_id] and every field that is not a field of the
    payload, and takes the four fields of the payload. *)
Theorem save_progress_in_place (h : Database) (p : Progress.t) (d0 : Doc) (w : World) :
  let u := Progress.user_id p in
  let m := Progress.module_id p in
  0 ≤ Progress.last_position p < 2 ^ 63 →
  stored_progress u m w = [d0] →
  ∃ r d w',
    save_progress (Some h) p w = (Return r, w') ∧
    stored_progress u m w' = [d] ∧
    length (coll w' "progress") = length (coll w "progress") ∧
    holds_progress d p ∧
    d !! "_id" = d0 !! "_id" ∧
    ∀ k, Progress.model_dump p !! k = None → d !! k = d0 !! k.
Proof.
  intros u m Hfit Hs.
  destruct (progress_dump_fields p) as [(Fu & Fm & Fl & Fc) Fid].
  assert (doc_encodable (Progress.model_dump p) = true) as Henc.
  { rewrite progress_dump_encodable. apply int64_spec. lia. }
  clear Hfit.
  destruct (upsert_then_find "progress" u m (Progress.model_dump p) Fu Fm Fid w Henc)
    as (d & w' & Eup & Efind & Hs' & Hfields & _ & Hold).
  { change (stored "progress" u m w) with (stored_progress u m w). by rewrite Hs. }
  { change (stored "progress" u m w) with (stored_progress u m w). by rewrite Hs. }
  destruct (Hold d0 Hs) as [-> Hlen].
  exists (to_str_id (Some (Progress.model_dump p ∪ d0))), (Progress.model_dump p ∪ d0), w'.
  split; [|split; [done|split; [done|split; [|split]]]].
  - unfold save_progress. fold (pair_key (Progress.user_id p) (Progress.module_id p)). fold u m.
    run_st. by rewrite Eup, Efind.
  - repeat split; by apply Hfields.
  - rewrite lookup_union. by rewrite Fid, (left_id None _).
  - intros k Hk. rewrite lookup_union. by rewrite Hk, (left_id None _).
Qed.

(** A second post for the pair of [progress_1], after the first. *)
Lemma save_progress_in_place_witness :
  ∃ r d w',
    save_progress (Some live_db) progress_2
      (snd (save_progress (Some live_db) progress_1 empty_world)) = (Return r, w') ∧
    stored_progress "ann" "m1" w' = [d] ∧
    length (coll w' "progress")
      = length (coll (snd (save_progress (Some live_db) progress_1 empty_world))
                  "progress") ∧
    holds_progress d progress_2 ∧
    d !! "_id" = (<["_id" := VOid oid_a]> (Progress.model_dump progress_1) : Doc) !! "_id" ∧
    ∀ k, Progress.model_dump progress_2 !! k = None →
         d !! k = (<["_id" := VOid oid_a]> (Progress.model_dump progress_1) : Doc) !! k.
Proof.
  apply (save_progress_in_place live_db progress_2
           (<["_id" := VOid oid_a]> (Progress.model_dump progress_1))
           (snd (save_progress (Some live_db) progress_1 empty_world))).
  - cbn. lia.
  - vm_compute. reflexivity.
Defined.

(** ** What a write touches, and the invariant of the keyed collections *)

Lemma upsert_frame (name u m : string) (fields : Doc) (w w' : World) (o : outcome unit) :
  fields !! "user_id" = Some (VStr u) → fields !! "module_id" = Some (VStr m) →
  fields !! "_id" = None →
  update_one name (pair_key u m) fields true w = (o, w') →
  ∀ name', name' ≠ name → coll w' name' = coll w name'.
Proof.
  intros Hu Hm Hid E.
  destruct (upsert_cases name u m fields Hu Hm Hid w) as (o1 & w1 & E1 & Hframe & _).
  rewrite E in E1. by injection E1 as <- <-.
Qed.

(** The store after [save_progress] is the store after its upsert. *)
Lemma save_progress_store (db : option Database) (p : Progress.t) (w : World) :
  snd (save_progress db p w) = w ∨
  ∃ o, update_one "progress" (pair_key (Progress.user_id p) (Progress.module_id p))
         (Progress.model_dump p) true w = (o, snd (save_progress db p w)).
Proof.
  unfold save_progress.
  fold (pair_key (Progress.user_id p) (Progress.module_id p)). run_st.
  destruct db as [h|]; run_st; [|by left]. right.
  destruct (update_one "progress" _ (Progress.model_dump p) true w) as [[[]|e] w1];
    eexists; reflexivity.
Qed.

Lemma save_note_store (db : option Database) (n : Note.t) (w : World) :
  snd (save_note db n w) = w ∨
  ∃ o, update_one "note" (pair_key (Note.user_id n) (Note.module_id n))
         (Note.model_dump n) true w = (o, snd (save_note db n w)).
Proof.
  unfold save_note.
  fold (pair_key (Note.user_id n) (Note.module_id n)). run_st.
  destruct db as [h|]; run_st; [|by left]. right.
  destruct (update_one "note" _ (Note.model_dump n) true w) as [[[]|e] w1];
    eexists; reflexivity.
Qed.

Lemma writes_frame (db : option Database) (p : Progress.t) (n : Note.t) (w : World) :
  (∀ name, name ≠ "progress" → coll (snd (save_progress db p w)) name = coll w name) ∧
  (∀ name, name ≠ "note" → coll (snd (save_note db n w)) name = coll w name).
Proof.
  destruct (progress_dump_fields p) as [(Fu & Fm & _) Fid].
  destruct (note_dump_fields n) as [(Gu & Gm & _) Gid].
  split; intros name Hne.
  - destruct (save_progress_store db p w) as [-> | [o E]]; [done|].
    by apply (upsert_frame _ _ _ _ _ _ _ Fu Fm Fid E).
  - destruct (save_note_store db n w) as [-> | [o E]]; [done|].
    by apply (upsert_frame _ _ _ _ _ _ _ Gu Gm Gid E).
Qed.

(** X9.  Whatever the handle and the answer, a post of progress changes no
    collection but [progress], and a post of a note none but [note]. *)
Theorem writes_stay_in_collection (db : option Database) (p : Progress.t) (n : Note.t)
    (w : World) :
  (∀ name, name ≠ "progress" → coll (snd (save_progress db p w)) name = coll w name) ∧
  (∀ name, name ≠ "note" → coll (snd (save_note db n w)) name = coll w name).
Proof. apply writes_frame. Qed.

(** The notes after a post of progress, and the progress records after a
    post of a note, on the empty store. *)
Lemma writes_stay_in_collection_witness :
  coll (snd (save_progress (Some live_db) progress_1 empty_world)) "note"
    = coll empty_world "note" ∧
  coll (snd (save_note (Some live_db) note_1 empty_world)) "progress"
    = coll empty_world "progress".
Proof.
  pose proof (writes_stay_in_collection (Some live_db) progress_1 note_1 empty_world)
    as [Hp Hn].
  split; [apply Hp|apply Hn]; discriminate.
Defined.

Lemma pairs_unique_same_coll (name : string) (w w' : World) :
  coll w' name = coll w name → pairs_unique name w → pairs_unique name w'.
Proof. intros E H u m. unfold stored. rewrite E. apply H. Qed.

Lemma save_progress_pairs_unique (db : option Database) (p : Progress.t) (w : World) :
  pairs_unique "progress" w → pairs_unique "progress" (snd (save_progress db p w)).
Proof.
  intros Hinv. destruct (progress_dump_fields p) as [(Fu & Fm & _) Fid].
  destruct (save_progress_store db p w) as [-> | [o E]]; [done|].
  by apply (upsert_pairs_unique _ _ _ _ Fu Fm Fid _ _ _ E).
Qed.

Lemma save_note_pairs_unique (db : option Database) (n : Note.t) (w : World) :
  pairs_unique "note" w → pairs_unique "note" (snd (save_note db n w)).
Proof.
  intros Hinv. destruct (note_dump_fields n) as [(Gu & Gm & _) Gid].
  destruct (save_note_store db n w) as [-> | [o E]]; [done|].
  by apply (upsert_pairs_unique _ _ _ _ Gu Gm Gid _ _ _ E).
Qed.

Lemma serve_keeps (db : option Database) (r : Request) (w : World) :
  pairs_unique "progress" w → pairs_unique "note" w →
  pairs_unique "progress" (snd (serve db r w)) ∧
  pairs_unique "note" (snd (serve db r w)) ∧
  coll (snd (serve db r w)) "module" = coll w "module".
Proof.
  intros Hp Hn.
  destruct r as [p|a b|n|a b|a]; cbn [serve].
  - pose proof (writes_frame db p (Note.mk "" "" "") w) as [Hf _].
    pose proof (save_progress_pairs_unique db p w Hp) as Hp'.
    destruct (save_progress db p w) as [o w']; cbn [snd] in *.
    split; [done|]. split; [|by apply Hf].
    apply (pairs_unique_same_coll "note" w w'); [by apply Hf|done].
  - pose proof (lookups_read_only db a b w) as (_ & E & _).
    destruct (get_progress db a b w) as [o w']; cbn [snd] in *. by subst w'.
  - pose proof (writes_frame db (Progress.mk "" "" 0 false) n w) as [_ Hf].
    pose proof (save_note_pairs_unique db n w Hn) as Hn'.
    destruct (save_note db n w) as [o w']; cbn [snd] in *.
    split; [|split; [done|by apply Hf]].
    apply (pairs_unique_same_coll "progress" w w'); [by apply Hf|done].
  - pose proof (lookups_read_only db a b w) as (_ & _ & E).
    destruct (get_note db a b w) as [o w']; cbn [snd] in *. by subst w'.
  - pose proof (lookups_read_only db a a w) as (E & _ & _).
    destruct (get_module db a w) as [o w']; cbn [snd] in *. by subst w'.
Qed.

(** X10.  The invariant of the data model, over every run of requests that
    [main.py] serves on its own: from a store in which no pair has two
    progress records nor two notes, any sequence of posts and lookups of
    progress and notes and of module lookups, with any handle and whatever
    each answer is, leads to a store in which no pair has two progress records
    nor two notes; and the modules are as they were. *)
Theorem requests_keep_pairs_unique (db : option Database) (rs : list Request) (w : World) :
  pairs_unique "progress" w → pairs_unique "note" w →
  pairs_unique "progress" (snd (serve_all db rs w)) ∧
  pairs_unique "note" (snd (serve_all db rs w)) ∧
  coll (snd (serve_all db rs w)) "module" = coll w "module".
Proof.
  revert w. induction rs as [|r rs IH]; intros w Hp Hn; [done|].
  cbn [serve_all].
  destruct (serve_keeps db r w Hp Hn) as (Hp1 & Hn1 & Hm1).
  destruct (serve db r w) as [s w1]; cbn [snd] in *.
  destruct (IH w1 Hp1 Hn1) as (Hp2 & Hn2 & Hm2).
  destruct (serve_all db rs w1) as [ss w2]; cbn [snd] in *.
  split; [done|]. split; [done|]. congruence.
Qed.

(** A mixed run on the empty store. *)
Lemma requests_keep_pairs_unique_witness :
  pairs_unique "progress" (snd (serve_all (Some live_db) mixed_requests empty_world)) ∧
  pairs_unique "note" (snd (serve_all (Some live_db) mixed_requests empty_world)) ∧
  coll (snd (serve_all (Some live_db) mixed_requests empty_world)) "module"
    = coll empty_world "module".
Proof.
  apply (requests_keep_pairs_unique (Some live_db) mixed_requests empty_world).
  - intros u m. change (0 ≤ 1)%nat. lia.
  - intros u m. change (0 ≤ 1)%nat. lia.
Defined.

Example mixed_requests_statuses :
  fst (serve_all (Some live_db) mixed_requests empty_world)
    = [200; 200; 200; 200; 200; 400; 200; 200].
Proof. vm_compute. reflexivity. Qed.

(** ** The answers of the progress and note handlers *)

(** X11.  Whatever the handle, the payload and the store, the four handlers of
    progress and notes answer 200 or 500. *)
Theorem progress_note_status_200_or_500 (db : option Database) (p : Progress.t)
    (n : Note.t) (a b : string) (w : World) :
  (status_of (fst (save_progress db p w)) = 200 ∨
   status_of (fst (save_progress db p w)) = 500) ∧
  (status_of (fst (get_progress db a b w)) = 200 ∨
   status_of (fst (get_progress db a b w)) = 500) ∧
  (status_of (fst (save_note db n w)) = 200 ∨
   status_of (fst (save_note db n w)) = 500) ∧
  (status_of (fst (get_note db a b w)) = 200 ∨
   status_of (fst (get_note db a b w)) = 500).
Proof.
  split; [|split; [|split]].
  - unfold save_progress. run_st. destruct db as [h|]; run_st; [|by right].
    destruct (update_one "progress" _ (Progress.model_dump p) true w) as [[[]|e] w1];
      [by left|by right].
  - unfold get_progress, find_one. run_st. destruct db as [h|]; run_st; [|by right].
    destruct (falsy _); by left.
  - unfold save_note. run_st. destruct db as [h|]; run_st; [|by right].
    destruct (update_one "note" _ (Note.model_dump n) true w) as [[[]|e] w1];
      [by left|by right].
  - unfold get_note, find_one. run_st. destruct db as [h|]; run_st; [|by right].
    destruct (falsy _); by left.
Qed.

(** ** What validation lets through *)

Section Accepted.
Variable conv : Conversions.

Lemma field_url_with_Some (d : Doc) (k u : string) :
  field_url_with conv d k = Some u →
  ∃ s, d !! k = Some (VStr s) ∧ HttpUrl conv s = Some u.
Proof.
  unfold field_url_with. destruct (d !! k) as [[]|]; try done. intros E. by exists s.
Qed.

Lemma field_opt_url_with_Some (d : Doc) (k : string) (o : option string) (u : string) :
  field_opt_url_with conv d k = Some o → o = Some u → is_url conv u.
Proof.
  unfold field_opt_url_with. destruct (d !! k) as [[]|]; try done; try (by intros [= <-]).
  destruct (HttpUrl conv s) as [u'|] eqn:E; [|done]. cbn. intros [= <-] [= <-].
  by exists s.
Qed.

Lemma field_str_Some (d : Doc) (k s : string) :
  field_str d k = Some s → d !! k = Some (VStr s).
Proof. unfold field_str. destruct (d !! k) as [[]|]; try done. by intros [= ->]. Qed.

Lemma field_int_ge0_with_Some (d : Doc) (k : string) (n : Z) :
  field_int_ge0_with conv d k = Some n → 0 ≤ n.
Proof.
  unfold field_int_ge0_with. destruct (d !! k) as [v|]; [|done].
  destruct (to_int conv v) as [n'|]; [cbn|done].
  case_bool_decide; [|done]. by intros [= <-].
Qed.

Lemma timestamp_validate_with_Some (v : Value) (ts : Timestamp.t) :
  Timestamp_validate_with conv v = Some ts → 0 ≤ Timestamp.time ts.
Proof.
  destruct v; try done. unfold Timestamp_validate_with.
  destruct (field_str d "label"); [cbn|done].
  destruct (field_int_ge0_with conv d "time") as [n|] eqn:E; [cbn|done].
  intros [= <-]. cbn. by eapply field_int_ge0_with_Some.
Qed.

Lemma resource_validate_with_Some (v : Value) (r : Resource.t) :
  Resource_validate_with conv v = Some r → is_url conv (Resource.url r).
Proof.
  destruct v; try done. unfold Resource_validate_with.
  destruct (field_str d "label"); [cbn|done].
  destruct (field_url_with conv d "url") as [u|] eqn:E; [cbn|done].
  destruct (field_opt_str d "type"); [cbn|done].
  intros [= <-]. cbn. apply field_url_with_Some in E as (t & _ & E). by exists t.
Qed.

Lemma field_list_Forall {A} (validate : Value → option A) (P : A → Prop)
    (d : Doc) (k : string) (l : list A) :
  (∀ v a, validate v = Some a → P a) →
  field_list validate d k = Some l → Forall P l.
Proof.
  intros HP. unfold field_list. destruct (d !! k) as [[]|]; try done.
  - intros H%mapM_Some_1. induction H; constructor; eauto.
  - intros [= <-]. constructor.
Qed.
End Accepted.

(** X12.  Whatever conversions pydantic makes, validation never lets through a
    module that breaks a constraint of [schemas.py]: whatever body is
    accepted, every URL of the model built from it is one that [HttpUrl]
    returned and no time of it is negative; its title is the text that the
    body has under that key, and its video URL is what [HttpUrl] returned for
    the text that the body has under that key. *)
Theorem validated_module_meets_constraints (conv : Conversions) (v : Value)
    (m : Module_.t) :
  Module_validate_with conv v = Some m →
  constraints_hold_with conv m ∧
  ∃ d s, v = VDict d ∧
         d !! "title" = Some (VStr (Module_.title m)) ∧
         d !! "video_url" = Some (VStr s) ∧
         HttpUrl conv s = Some (Module_.video_url m).
Proof.
  destruct v; try done. unfold Module_validate_with.
  destruct (field_str d "title") as [title|] eqn:E1; [cbn|done].
  destruct (field_opt_str d "description") as [description|]; [cbn|done].
  destruct (field_url_with conv d "video_url") as [video_url|] eqn:E2; [cbn|done].
  destruct (field_opt_url_with conv d "thumbnail_url") as [thumbnail_url|] eqn:E3;
    [cbn|done].
  destruct (field_opt_str d "category") as [category|]; [cbn|done].
  destruct (field_list (Timestamp_validate_with conv) d "timestamps")
    as [timestamps|] eqn:E4; [cbn|done].
  destruct (field_list (Resource_validate_with conv) d "resources")
    as [resources|] eqn:E5; [cbn|done].
  intros [= <-]. apply field_url_with_Some in E2 as (s & E2 & Hv).
  apply field_str_Some in E1.
  split; [|by exists d, s].
  split; [by exists s|]. split; [|split]; cbn.
  - intros u Hu. by eapply field_opt_url_with_Some.
  - eapply field_list_Forall; [|exact E4]. apply timestamp_validate_with_Some.
  - eapply field_list_Forall; [|exact E5]. apply resource_validate_with_Some.
Qed.

(** The body whose video URL has no path: the model has the URL with its path. *)
Lemma validated_module_meets_constraints_witness :
  constraints_hold_with normalising
    (Module_.mk "Routines" None "https://example.com/" None None [] []) ∧
  ∃ d s, VDict bare_host_body = VDict d ∧
         d !! "title" = Some (VStr "Routines") ∧
         d !! "video_url" = Some (VStr s) ∧
         HttpUrl normalising s = Some "https://example.com/".
Proof.
  apply (validated_module_meets_constraints normalising (VDict bare_host_body)
           (Module_.mk "Routines" None "https://example.com/" None None [] [])).
  vm_compute. reflexivity.
Defined.



Lemma timestamp_negative_time (td : Doc) (n : Z) :
  td !! "time" = Some (VInt n) → n < 0 → Timestamp.validate (VDict td) = None.
Proof.
  intros Ht Hn. unfold Timestamp.validate, field_int_ge0. rewrite Ht.
  destruct (field_str td "label"); [cbn|done].
  by rewrite bool_decide_eq_false_2 by lia.
Qed.

(** X14.  A body without [title], or with a timestamp whose [time] is a negative
    integer ([ge=0]), is answered with the validation error and the store is
    left as it was, whatever the handle. *)
Theorem post_module_title_or_time_rejected (db : option Database) (d : Doc) (w : World) :
  d !! "title" = None ∨
  (∃ l td n, d !! "timestamps" = Some (VList l) ∧ VDict td ∈ l ∧
             td !! "time" = Some (VInt n) ∧ n < 0) →
  post_api_modules db (VDict d) w = (Raise RequestValidationError, w) ∧
  status_of (fst (post_api_modules db (VDict d) w)) = 422.
Proof.
  intros Hd.
  assert (Module_.validate (VDict d) = None) as E.
  { unfold Module_.validate. destruct Hd as [Ht | (l & td & n & Hl & Hin & Htime & Hn)].
    - unfold field_str. by rewrite Ht.
    - destruct (field_str d "title"); [cbn|done].
      destruct (field_opt_str d "description"); [cbn|done].
      destruct (field_url d "video_url"); [cbn|done].
      destruct (field_opt_url d "thumbnail_url"); [cbn|done].
      destruct (field_opt_str d "category"); [cbn|done].
      rewrite (field_list_defect Timestamp.validate d "timestamps" l (VDict td));
        [done..|].
      by eapply timestamp_negative_time. }
  unfold post_api_modules. rewrite E. by split.
Qed.

(** A body without title, and a body with a timestamp at second -1. *)
Lemma post_module_title_or_time_rejected_witness :
  post_api_modules (Some live_db)
    (VDict {[ "video_url" := VStr "https://samplelib.com/lib/preview/mp4/sample-5s.mp4" ]})
    empty_world = (Raise RequestValidationError, empty_world) ∧
  post_api_modules (Some live_db)
    (VDict {[ "title" := VStr "Routines";
              "video_url" := VStr "https://samplelib.com/lib/preview/mp4/sample-5s.mp4";
              "timestamps" := VList [VDict {[ "label" := VStr "Start";
                                              "time" := VInt (-1) ]}] ]})
    empty_world = (Raise RequestValidationError, empty_world).
Proof.
  split.
  - apply (post_module_title_or_time_rejected (Some live_db)
             {[ "video_url" := VStr "https://samplelib.com/lib/preview/mp4/sample-5s.mp4" ]}
             empty_world).
    left. reflexivity.
  - apply (post_module_title_or_time_rejected (Some live_db)
             {[ "title" := VStr "Routines";
                "video_url" := VStr "https://samplelib.com/lib/preview/mp4/sample-5s.mp4";
                "timestamps" := VList [VDict {[ "label" := VStr "Start";
                                                "time" := VInt (-1) ]}] ]}
             empty_world).
    right. exists [VDict {[ "label" := VStr "Start"; "time" := VInt (-1) ]}],
      {[ "label" := VStr "Start"; "time" := VInt (-1) ]}, (-1).
    split; [reflexivity|]. split; [apply list_elem_of_here|].
    split; [reflexivity|lia].
Defined.

(** ** The bodies of progress and notes *)

(** X15.  A progress body with the two keys and neither [last_position] nor
    [completed] is served as the payload with position 0 and not completed; a
    body without [user_id] or without [module_id], or with a negative
    [last_position], is answered with the validation error and nothing is
    written. *)
Theorem post_progress_body (db : option Database) (d : Doc) (w : World) :
  (∀ u m, d !! "user_id" = Some (VStr u) → d !! "module_id" = Some (VStr m) →
          d !! "last_position" = None → d !! "completed" = None →
          post_api_progress db (VDict d) w
            = save_progress db (Progress.mk u m 0 false) w) ∧
  (d !! "user_id" = None ∨ d !! "module_id" = None ∨
   (∃ n, d !! "last_position" = Some (VInt n) ∧ n < 0) →
   post_api_progress db (VDict d) w = (Raise RequestValidationError, w)).
Proof.
  split.
  - intros u m Hu Hm Hl Hc.
    unfold post_api_progress, Progress_validate, field_str, field_int_ge0_or,
      field_bool_or.
    by rewrite Hu, Hm, Hl, Hc.
  - intros Hd.
    assert (Progress_validate (VDict d) = None) as E.
    { unfold Progress_validate, field_str, field_int_ge0_or.
      destruct Hd as [-> | [H | (n & -> & Hn)]]; [done| |].
      - destruct (d !! "user_id") as [[]|]; try done. cbn. by rewrite H.
      - destruct (d !! "user_id") as [[]|]; try done. cbn.
        destruct (d !! "module_id") as [[]|]; try done. cbn.
        by rewrite bool_decide_eq_false_2 by lia. }
    unfold post_api_progress. by rewrite E.
Qed.

(** A body with the two keys only, and a body with position -5. *)
Lemma post_progress_body_witness :
  post_api_progress (Some live_db) (VDict (pair_key "ann" "m1")) empty_world
    = save_progress (Some live_db) (Progress.mk "ann" "m1" 0 false) empty_world ∧
  post_api_progress (Some live_db)
    (VDict (<["last_position" := VInt (-5)]> (pair_key "ann" "m1"))) empty_world
    = (Raise RequestValidationError, empty_world).
Proof.
  split.
  - apply (proj1 (post_progress_body (Some live_db) (pair_key "ann" "m1") empty_world));
      reflexivity.
  - apply (proj2 (post_progress_body (Some live_db)
                    (<["last_position" := VInt (-5)]> (pair_key "ann" "m1")) empty_world)).
    right; right. exists (-5). split; [reflexivity|lia].
Defined.

(** X16.  A note body with the two keys and no [content] is served as the note with
    empty content; a body without [user_id] or without [module_id] is answered
    with the validation error and nothing is written. *)
Theorem post_note_body (db : option Database) (d : Doc) (w : World) :
  (∀ u m, d !! "user_id" = Some (VStr u) → d !! "module_id" = Some (VStr m) →
          d !! "content" = None →
          post_api_notes db (VDict d) w = save_note db (Note.mk u m "") w) ∧
  (d !! "user_id" = None ∨ d !! "module_id" = None →
   post_api_notes db (VDict d) w = (Raise RequestValidationError, w)).
Proof.
  split.
  - intros u m Hu Hm Hc.
    unfold post_api_notes, Note_validate, field_str, field_str_or.
    by rewrite Hu, Hm, Hc.
  - intros Hd.
    assert (Note_validate (VDict d) = None) as E.
    { unfold Note_validate, field_str.
      destruct Hd as [-> | H]; [done|].
      destruct (d !! "user_id") as [[]|]; try done. cbn. by rewrite H. }
    unfold post_api_notes. by rewrite E.
Qed.

(** A body with the two keys only, and a body with no key. *)
Lemma post_note_body_witness :
  post_api_notes (Some live_db) (VDict (pair_key "ann" "m1")) empty_world
    = save_note (Some live_db) (Note.mk "ann" "m1" "") empty_world ∧
  post_api_notes (Some live_db) (VDict ∅) empty_world
    = (Raise RequestValidationError, empty_world).
Proof.
  split.
  - apply (proj1 (post_note_body (Some live_db) (pair_key "ann" "m1") empty_world));
      reflexivity.
  - apply (proj2 (post_note_body (Some live_db) ∅ empty_world)).
    left. reflexivity.
Defined.

(** X17.  The defaults written in [main.py] are the defaults of [schemas.py]: for a
    pair without record, the lookup answers the dictionary of the model that
    validation builds from a body with the two keys only. *)
Theorem lookup_defaults_are_schema_defaults (h : Database) (u m : string) (w : World) :
  (Forall (λ d, ¬ matches (pair_key u m) d) (coll w "progress") →
   ∃ p0, Progress_validate (VDict (pair_key u m)) = Some p0 ∧
         get_progress (Some h) u m w = (Return (Some (Progress.model_dump p0)), w)) ∧
  (Forall (λ d, ¬ matches (pair_key u m) d) (coll w "note") →
   ∃ n0, Note_validate (VDict (pair_key u m)) = Some n0 ∧
         get_note (Some h) u m w = (Return (Some (Note.model_dump n0)), w)).
Proof.
  split; intros Hnone.
  - exists (Progress.mk u m 0 false). split.
    + unfold Progress_validate, field_str, field_int_ge0_or, field_bool_or, pair_key.
      by map_lookups.
    + unfold get_progress. fold (pair_key u m). run_st.
      by rewrite (find_one_none _ _ _ Hnone).
  - exists (Note.mk u m ""). split.
    + unfold Note_validate, field_str, field_str_or, pair_key. by map_lookups.
    + unfold get_note. fold (pair_key u m). run_st.
      by rewrite (find_one_none _ _ _ Hnone).
Qed.

(** Both lookups on the empty store. *)
Lemma lookup_defaults_are_schema_defaults_witness :
  (∃ p0, Progress_validate (VDict (pair_key "ann" "m1")) = Some p0 ∧
         get_progress (Some live_db) "ann" "m1" empty_world
           = (Return (Some (Progress.model_dump p0)), empty_world)) ∧
  (∃ n0, Note_validate (VDict (pair_key "ann" "m1")) = Some n0 ∧
         get_note (Some live_db) "ann" "m1" empty_world
           = (Return (Some (Note.model_dump n0)), empty_world)).
Proof.
  pose proof (lookup_defaults_are_schema_defaults live_db "ann" "m1" empty_world)
    as [Hp Hn].
  split; [apply Hp|apply Hn]; constructor.
Defined.

(** ** The report of [test_database] *)

(** X18.  The fields [database_url] and [database_name] of the report tell whether
    the two environment variables are set and not empty, and nothing else:
    what [db.name] returned is overwritten before the report leaves. *)
Theorem test_database_env_fields (db : option Database) (environ : gmap string string) :
  ∃ report : Doc,
    test_database db environ = Return report ∧
    report !! "backend" = Some (VStr "✅ Running") ∧
    report !! "database_url"
      = Some (VStr (if getenv_truthy environ "DATABASE_URL"
                    then "✅ Set" else "❌ Not Set")) ∧
    report !! "database_name"
      = Some (VStr (if getenv_truthy environ "DATABASE_NAME"
                    then "✅ Set" else "❌ Not Set")).
Proof.
  destruct db as [[b [|v|e] [l|e']]|];
    (eexists; split; [reflexivity|repeat split]).
Qed.

(** X19.  The report lists at most ten collections, the first ten that the handle
    lists, and none when the handle is absent or a call on it raised; the
    connection is reported as made once [db.name] was read. *)
Theorem test_database_collections (db : option Database) (environ : gmap string string) :
  let names :=
    match db with
    | Some h =>
        match db_name h, db_list_collection_names h with
        | AttrRaises _, _ | _, Raise _ => []
        | _, Return l => take 10 l
        end
    | None => []
    end in
  ∃ report : Doc,
    test_database db environ = Return report ∧
    report !! "collections" = Some (VList (VStr <$> names)) ∧
    (length names ≤ 10)%nat ∧
    report !! "connection_status"
      = Some (VStr match db with
                   | Some h => match db_name h with
                               | AttrRaises _ => "Not Connected"
                               | _ => "Connected"
                               end
                   | None => "Not Connected"
                   end).
Proof.
  destruct db as [[b [|v|e] [l|e']]|]; cbn zeta;
    (eexists; split; [reflexivity|]; split; [reflexivity|]; split; [|reflexivity]);
    cbn; rewrite ?length_take; lia.
Qed.
